(** * NRCLex: emotional affect of a token sequence against a lexicon

    A shallow embedding of [src/nrclex/nrclex.py] (class [NRCLex]) and the
    properties of its specification.

    Modelling choices.
    - [self.lexicon : dict[str, list[str]]] is only ever read by key, so it
      is a finite map [gmap string (list string)].
    - The dicts built by [build_word_affect] ([affect_dict], the [Counter]
      and [affect_percent]) are iterated over, and Python dicts iterate in
      insertion order: they are association lists kept in insertion order
      with unique keys ([PyDict]).
    - Python [int] is [Z].  Python [float] is idealised as an exact rational
      kept in lowest terms ([Qred]), so that, as for floats, two equal
      values are the same value; rounding is not modelled.
    - Python exceptions are the constructors of [exn]; a method is a
      function from the machine state to an outcome and the state the
      method leaves behind (an exception does not roll back assignments
      already made).
    - The file system, [json.load], the packaged resource and TextBlob are
      external: they are Variables of the section [Analyzer].
    - [json.load] checks nothing: the module [Untyped] is the same object
      with, as lexicon, whatever JSON value the file holds; there a value
      that cannot be iterated or hashed makes [build_word_affect] raise.
      On an object of arrays of strings the two models agree
      ([load_token_list_refines]). *)

From Stdlib Require Import ZArith QArith Qreduction Ascii String List Lia.
From stdpp Require Import base option list gmap strings.

Local Open Scope Z_scope.

(** ** Exceptions and outcomes *)

Inductive exn : Type :=
  | TypeError
  | ValueError
  | KeyError
  | ZeroDivisionError
  | OSError
  | JSONDecodeError
  | AttributeError.

Inductive result (A : Type) : Type :=
  | Ok (a : A)
  | Raise (e : exn).

Arguments Ok {A} a.
Arguments Raise {A} e.

#[global] Instance result_ret : MRet result := fun A a => Ok a.
#[global] Instance result_bind : MBind result := fun A B f m =>
  match m with
  | Ok a => f a
  | Raise e => Raise e
  end.

(** A [for] loop whose body may raise: the accumulator is threaded from
    left to right and the first exception stops the loop. *)
Fixpoint for_each {A B : Type} (body : A -> B -> result A) (xs : list B)
    (acc : A) : result A :=
  match xs with
  | [] => Ok acc
  | x :: xs' => acc' ← body acc x; for_each body xs' acc'
  end.

(** ** Python dicts, in insertion order *)

Module PyDict.

Definition t (V : Type) : Type := list (string * V).

Definition empty {V : Type} : t V := [].

(** [d.get(k)] *)
Fixpoint get {V : Type} (d : t V) (k : string) : option V :=
  match d with
  | [] => None
  | (k', v) :: d' => if String.eqb k k' then Some v else get d' k
  end.

(** [d[k]], raising [KeyError] for a missing key *)
Definition getitem {V : Type} (d : t V) (k : string) : result V :=
  match get d k with
  | Some v => Ok v
  | None => Raise KeyError
  end.

(** [d[k] = v] (also [d.update({k: v})]): an existing key keeps its
    position, a new key goes to the end. *)
Fixpoint setitem {V : Type} (d : t V) (k : string) (v : V) : t V :=
  match d with
  | [] => [(k, v)]
  | (k', v') :: d' =>
      if String.eqb k k' then (k', v) :: d' else (k', v') :: setitem d' k v
  end.

Definition keys {V : Type} (d : t V) : list string := map fst d.
Definition values {V : Type} (d : t V) : list V := map snd d.

End PyDict.

(** ** Numbers and builtins *)

Module Py.

(** Python's [float], idealised: an exact rational in lowest terms. *)
Definition float : Type := Q.

(** [float(n)] for an [int] [n] *)
Definition float_of_int (n : Z) : float := inject_Z n.

(** [x / y] on floats *)
Definition truediv (x y : float) : result float :=
  if Qeq_bool y 0 then Raise ZeroDivisionError else Ok (Qred (x / y)).

(** [x == y] and [x > y] on floats *)
Definition eq (x y : float) : bool := Qeq_bool x y.
Definition gt (x y : float) : bool := negb (Qle_bool x y).

(** [sum(xs)] over ints: starts from 0 and adds from left to right. *)
Definition sum (xs : list Z) : Z := fold_left Z.add xs 0.

(** [max(xs)]: [ValueError] on an empty sequence, otherwise the first of
    the largest items. *)
Definition max (xs : list float) : result float :=
  match xs with
  | [] => Raise ValueError
  | x :: xs' => Ok (fold_left (fun m y => if gt y m then y else m) xs' x)
  end.

End Py.

(** ** [collections.Counter] *)

Module Counter.

(** [c[k]]: a missing key counts zero and is not inserted. *)
Definition getitem (c : PyDict.t Z) (k : string) : Z :=
  match PyDict.get c k with
  | Some n => n
  | None => 0
  end.

(** [c[k] += 1] *)
Definition incr (c : PyDict.t Z) (k : string) : PyDict.t Z :=
  PyDict.setitem c k (getitem c k + 1).

End Counter.

(** ** The analyzer object *)

Record NRCLex : Type := mkNRCLex {
  lexicon : gmap string (list string);
  words : list string;
  affect_list : list string;
  affect_dict : PyDict.t (list string);
  raw_emotion_scores : PyDict.t Z;
  affect_frequencies : PyDict.t Py.float
}.

(** [self.lexicon[word]] *)
Definition lexicon_getitem (lex : gmap string (list string)) (word : string)
    : result (list string) :=
  match lex !! word with
  | Some emotions => Ok emotions
  | None => Raise KeyError
  end.

(** [word in self.lexicon.keys()] *)
Definition lexicon_contains (lex : gmap string (list string)) (word : string)
    : bool :=
  bool_decide (word ∈ dom lex).

(** ** Methods

    The machine state is the object and the log of the files opened so
    far.  A method maps a state to its outcome and the state it leaves. *)

Definition Path : Type := string.

Record state : Type := mkState {
  self : NRCLex;
  opened : list Path
}.

Definition method (A : Type) : Type := state -> result A * state.

#[global] Instance method_ret : MRet method := fun A a st => (Ok a, st).
#[global] Instance method_bind : MBind method := fun A B f m st =>
  match m st with
  | (Ok a, st') => f a st'
  | (Raise e, st') => (Raise e, st')
  end.

(** A computation on local values only, run inside a method. *)
Definition local {A : Type} (r : result A) : method A := fun st => (r, st).

(** [raise e] *)
Definition raise {A : Type} (e : exn) : method A := fun st => (Raise e, st).

(** Reading the attributes of [self], and assigning to them. *)
Definition getattr {A : Type} (field : NRCLex -> A) : method A :=
  fun st => (Ok (field (self st)), st).

Definition assign (update : NRCLex -> NRCLex) : method unit :=
  fun st => (Ok tt, mkState (update (self st)) (opened st)).

Definition set_lexicon (v : gmap string (list string)) (o : NRCLex) : NRCLex :=
  mkNRCLex v (words o) (affect_list o) (affect_dict o)
           (raw_emotion_scores o) (affect_frequencies o).
Definition set_words (v : list string) (o : NRCLex) : NRCLex :=
  mkNRCLex (lexicon o) v (affect_list o) (affect_dict o)
           (raw_emotion_scores o) (affect_frequencies o).
Definition set_affect_list (v : list string) (o : NRCLex) : NRCLex :=
  mkNRCLex (lexicon o) (words o) v (affect_dict o)
           (raw_emotion_scores o) (affect_frequencies o).
Definition set_affect_dict (v : PyDict.t (list string)) (o : NRCLex) : NRCLex :=
  mkNRCLex (lexicon o) (words o) (affect_list o) v
           (raw_emotion_scores o) (affect_frequencies o).
Definition set_raw_emotion_scores (v : PyDict.t Z) (o : NRCLex) : NRCLex :=
  mkNRCLex (lexicon o) (words o) (affect_list o) (affect_dict o)
           v (affect_frequencies o).
Definition set_affect_frequencies (v : PyDict.t Py.float) (o : NRCLex) : NRCLex :=
  mkNRCLex (lexicon o) (words o) (affect_list o) (affect_dict o)
           (raw_emotion_scores o) v.

(** *** [build_word_affect] *)

(** Lines 132-135: the loop over [self.words]. *)
Definition match_step (lex : gmap string (list string))
    (acc : list string * PyDict.t (list string)) (word : string)
    : result (list string * PyDict.t (list string)) :=
  let '(affect_list, affect_dict) := acc in
  if lexicon_contains lex word then
    emotions ← lexicon_getitem lex word;
    let affect_list := affect_list ++ emotions in
    emotions' ← lexicon_getitem lex word;
    Ok (affect_list, PyDict.setitem affect_dict word emotions')
  else Ok (affect_list, affect_dict).

(** Lines 137-138: the tally. *)
Definition tally (affect_list : list string) : PyDict.t Z :=
  fold_left Counter.incr affect_list PyDict.empty.

(** Lines 141-144: the dict comprehension. *)
Definition percent_step (affect_frequencies : PyDict.t Z) (sum_values : Z)
    (acc : PyDict.t Py.float) (key : string) : result (PyDict.t Py.float) :=
  v ← Py.truediv (Py.float_of_int (Counter.getitem affect_frequencies key))
                 (Py.float_of_int sum_values);
  Ok (PyDict.setitem acc key v).

Definition build_word_affect : method unit :=
  lex ← getattr lexicon;
  ws ← getattr words;
  '(affect_list, affect_dict) ←
      local (for_each (match_step lex) ws ([], PyDict.empty));
  let affect_frequencies := tally affect_list in
  let sum_values := Py.sum (PyDict.values affect_frequencies) in
  affect_percent ←
      local (for_each (percent_step affect_frequencies sum_values)
                      (PyDict.keys affect_frequencies) PyDict.empty);
  assign (set_affect_list affect_list);;
  assign (set_affect_dict affect_dict);;
  assign (set_raw_emotion_scores affect_frequencies);;
  assign (set_affect_frequencies affect_percent).

(** *** [top_emotions] *)

Definition top_step (freqs : PyDict.t Py.float) (max_value : Py.float)
    (top : list (string * Py.float)) (key : string)
    : result (list (string * Py.float)) :=
  v ← PyDict.getitem freqs key;
  if Py.eq v max_value then Ok (top ++ [(key, max_value)]) else Ok top.

Definition top_emotions : method (list (string * Py.float)) :=
  freqs ← getattr affect_frequencies;
  max_value ← local (Py.max (PyDict.values freqs));
  local (for_each (top_step freqs max_value) (PyDict.keys freqs) []).

(** *** [load_token_list] *)

Definition load_token_list (token_list : list string) : method unit :=
  assign (set_words token_list);;
  build_word_affect.

(** ** The constructor, [load_lexicon] and [load_raw_text]

    The values a caller may pass as [lexicon_file]. *)

Inductive pyobj : Type :=
  | PyPath (p : Path)
  | PyStr (s : string)
  | PyInt (n : Z)
  | PyNone.

(** [isinstance(x, Path)] *)
Definition isinstance_Path (x : pyobj) : bool :=
  match x with
  | PyPath _ => true
  | _ => false
  end.

(** [x == y] *)
Definition py_eq (x y : pyobj) : bool :=
  match x, y with
  | PyPath p, PyPath q => String.eqb p q
  | PyStr s, PyStr t => String.eqb s t
  | PyInt n, PyInt m => Z.eqb n m
  | PyNone, PyNone => true
  | _, _ => false
  end.

(** [x in xs] for a tuple [xs] *)
Definition py_in (x : pyobj) (xs : list pyobj) : bool := existsb (py_eq x) xs.

(** [get_args(PreInstalledLexicons)] *)
Definition PreInstalledLexicons : list pyobj := [PyStr "NRCLex"].

(** The object before [__init__] has run: no attribute is set yet; the
    constructor assigns every field before anyone can read it. *)
Definition blank : NRCLex := mkNRCLex ∅ [] [] [] [] [].

Section Analyzer.

(** [open(path, 'r')]: the text of the file, or the error of the
    operating system. *)
Variable open_file : Path -> result string.
(** [json.load], on the text of a file holding an object of arrays of
    strings. *)
Variable json_load : string -> result (gmap string (list string)).
(** [files('nrclex.data').joinpath('nrc_en.json')], as a file. *)
Variable nrc_en_json : Path.
(** [TextBlob(text).words] and [w.lemma]. *)
Variable blob_words : string -> list string.
Variable lemma : string -> string.

(** [with open(path, 'r') as json_file] *)
Definition open_ (path : Path) : method string :=
  fun st => (open_file path, mkState (self st) (opened st ++ [path])).

Definition load_lexicon (path : Path) : method unit :=
  json_file ← open_ path;
  lex ← local (json_load json_file);
  assign (set_lexicon lex).

Definition __init__ (lexicon_file : pyobj) : method unit :=
  let preinstalled_files : PyDict.t Path := [("NRCLex"%string, nrc_en_json)] in
  assign (set_lexicon ∅);;
  (if isinstance_Path lexicon_file then
     match lexicon_file with
     | PyPath p => load_lexicon p
     | _ => raise TypeError
     end
   else if py_in lexicon_file PreInstalledLexicons then
     lexicon_file ← local (match lexicon_file with
                           | PyStr s => PyDict.getitem preinstalled_files s
                           | _ => Raise KeyError
                           end);
     load_lexicon lexicon_file
   else raise TypeError);;
  assign (set_words []);;
  assign (set_affect_list []);;
  assign (set_affect_dict PyDict.empty);;
  assign (set_raw_emotion_scores PyDict.empty);;
  assign (set_affect_frequencies PyDict.empty).

(** [NRCLex(lexicon_file)]: the object when [__init__] returns, and the
    files opened on the way. *)
Definition construct (lexicon_file : pyobj) (log : list Path)
    : result NRCLex * list Path :=
  match __init__ lexicon_file (mkState blank log) with
  | (Ok _, st) => (Ok (self st), opened st)
  | (Raise e, st) => (Raise e, opened st)
  end.

Definition load_raw_text (text : string) : method unit :=
  let blob := blob_words text in
  load_token_list (map lemma blob).

End Analyzer.

(** ** What a load is specified to compute *)

(** The emotion lists of the tokens that are keys of the lexicon,
    concatenated in token order. *)
Definition matched_emotions (lex : gmap string (list string))
    (tokens : list string) : list string :=
  concat (omap (fun w => lex !! w) tokens).

(** The lexicon restricted to the tokens, in order of first occurrence. *)
Definition matched_map (lex : gmap string (list string))
    (tokens : list string) : PyDict.t (list string) :=
  fold_left (fun d w => match lex !! w with
                        | Some emotions => PyDict.setitem d w emotions
                        | None => d
                        end) tokens [].

(** Count over total, for every counted label. *)
Definition frequencies (counts : PyDict.t Z) : PyDict.t Py.float :=
  map (fun kc => (fst kc, Qred (inject_Z (snd kc) / inject_Z (Py.sum (PyDict.values counts)))))
      counts.

Definition recomputed (lex : gmap string (list string))
    (tokens : list string) : NRCLex :=
  mkNRCLex lex tokens (matched_emotions lex tokens) (matched_map lex tokens)
           (tally (matched_emotions lex tokens))
           (frequencies (tally (matched_emotions lex tokens))).

(** How many times a label occurs in a list. *)
Definition occurrences (e : string) (l : list string) : Z :=
  Z.of_nat (count_occ string_dec l e).

(** The sum of a list of rationals. *)
Definition Qsum (xs : list Q) : Q := fold_right Qplus 0%Q xs.

(** ** A running example: the scenario of the specification *)

Definition demo_lexicon : gmap string (list string) :=
  <["happy"%string := ["joy"; "positive"]%string]>
    (<["sad"%string := ["sadness"; "negative"]%string]> ∅).

Definition demo_tokens : list string := ["happy"; "happy"; "sad"]%string.

Definition demo_state : state :=
  mkState (mkNRCLex demo_lexicon [] [] [] [] []) [].

(** The values stored by a load are in lowest terms, so two of them that
    are equal as numbers are the same value. *)
Definition canonical (d : PyDict.t Py.float) : Prop :=
  Forall (fun v => Qred v = v) (PyDict.values d).

(** An object right after construction from the lexicon [lex]. *)
Definition constructed (lex : gmap string (list string)) : NRCLex :=
  mkNRCLex lex [] [] [] [] [].

(** A file system with one lexicon file, for the examples. *)
Definition demo_open_file (path : Path) : result string :=
  if String.eqb path "nrc_en.json" then Ok "{...}"%string else Raise OSError.

Definition demo_json_load (text : string) : result (gmap string (list string)) :=
  if String.eqb text "{...}" then Ok demo_lexicon else Raise JSONDecodeError.

(** A lexicon with a word that carries no emotion. *)
Definition hollow_lexicon : gmap string (list string) :=
  {["a"%string := []]}.

(** The distinct elements of a list, in order of first occurrence. *)
Fixpoint distinct (l : list string) : list string :=
  match l with
  | [] => []
  | x :: xs => x :: List.filter (fun y => negb (String.eqb y x)) (distinct xs)
  end.

(** What one token brings to the raw count of the label [e]. *)
Definition contribution (lex : gmap string (list string)) (e : string)
    (w : string) : Z :=
  match lex !! w with
  | Some emotions => occurrences e emotions
  | None => 0
  end.

(** ** The package's start-up ([__init__.py])

    The loop that fetches the tokenizer data that is missing.  [nltk] is
    external: its data directory is a state of type [W], [nltk.data.find]
    either returns or raises [LookupError], and [nltk.download] changes
    the data directory. *)

(** The text after the last ['/']: [library.split('/')[-1]].  [cur] is the
    segment read so far. *)
Fixpoint last_segment (cur s : string) : string :=
  match s with
  | EmptyString => cur
  | String c s' =>
      if Ascii.eqb c "/"%char then last_segment EmptyString s'
      else last_segment (cur +:+ String c EmptyString) s'
  end.

(** [s.replace('.zip', '')]: every occurrence, from left to right, without
    overlap. *)
Fixpoint remove_zip (s : string) : string :=
  match s with
  | String "."%char (String "z"%char (String "i"%char (String "p"%char rest))) =>
      remove_zip rest
  | String c s' => String c (remove_zip s')
  | EmptyString => EmptyString
  end.

(** [library.split('/')[-1].replace('.zip', '')] *)
Definition resource_name (library : string) : string :=
  remove_zip (last_segment EmptyString library).

Inductive event : Type :=
  | Print (line : string)
  | Download (name : string).

Section Bootstrap.
Variable W : Type.
(** [nltk.data.find(library)]: [true] when it returns, [false] when it
    raises [LookupError]. *)
Variable find : W -> string -> bool.
(** [nltk.download(name)] *)
Variable download : string -> W -> W.

(** One turn of the loop: the new data directory and what was printed and
    fetched. *)
Definition bootstrap_step (acc : W * list event) (library : string)
    : W * list event :=
  let '(w, log) := acc in
  if find w library then (w, log)
  else (download (resource_name library) w,
        log ++ [Print ("Could not find " +:+ library +:+ ", downloading");
                Print "---";
                Download (resource_name library)]).

Definition bootstrap (libraries : list string) (w : W) : W * list event :=
  fold_left bootstrap_step libraries (w, []).

End Bootstrap.

(** The libraries the package asks for. *)
Definition libraries : list string :=
  ["tokenizers/punkt"; "corpora/wordnet.zip"]%string.

(** ** The analyzer on an unchecked lexicon

    [load_lexicon] stores what [json.load] returns, whatever it is.  A
    character is an [ascii], a float an exact rational as above; the
    constants [NaN] and [Infinity], which [json.load] also accepts, have
    no counterpart.  The members of an object have distinct keys. *)

Module Untyped.

#[warnings="-register-all"] Inductive json : Type :=
  | JNull
  | JBool (b : bool)
  | JInt (n : Z)
  | JFloat (x : Py.float)
  | JStr (s : string)
  | JArr (items : list json)
  | JObj (members : list (string * json)).

(** The items that iterating over a value yields: the elements of a list,
    the characters of a string, the keys of a dict; [TypeError] for a
    value that is not iterable. *)
Definition iterate (v : json) : result (list json) :=
  match v with
  | JArr items => Ok items
  | JStr s => Ok (map (fun c => JStr (String c EmptyString)) (list_ascii_of_string s))
  | JObj members => Ok (map (fun kv => JStr (fst kv)) members)
  | JNull | JBool _ | JInt _ | JFloat _ => Raise TypeError
  end.

(** Lists and dicts cannot be hashed. *)
Definition hashable (v : json) : bool :=
  match v with
  | JArr _ | JObj _ => false
  | _ => true
  end.

(** The number a [bool], [int] or [float] stands for. *)
Definition number (v : json) : option Q :=
  match v with
  | JBool b => Some (if b then 1 else 0)%Q
  | JInt n => Some (inject_Z n)
  | JFloat x => Some x
  | _ => None
  end.

(** Equality of two hashable values as dict keys: numbers by value
    ([True == 1 == 1.0]), strings by content, [None] with itself. *)
Definition key_eq (a b : json) : bool :=
  match a, b with
  | JNull, JNull => true
  | JStr s, JStr t => String.eqb s t
  | _, _ =>
      match number a, number b with
      | Some x, Some y => Qeq_bool x y
      | _, _ => false
      end
  end.

(** A dict whose keys are hashable values, in insertion order. *)
Definition dict (V : Type) : Type := list (json * V).

Fixpoint get {V : Type} (d : dict V) (k : json) : option V :=
  match d with
  | [] => None
  | (k', v) :: d' => if key_eq k k' then Some v else get d' k
  end.

(** [d[k] = v]: an existing key keeps its position and its key object. *)
Fixpoint setitem {V : Type} (d : dict V) (k : json) (v : V) : dict V :=
  match d with
  | [] => [(k, v)]
  | (k', v') :: d' =>
      if key_eq k k' then (k', v) :: d' else (k', v') :: setitem d' k v
  end.

(** [c[k]] on a [Counter]: zero for a missing key. *)
Definition counter_getitem (c : dict Z) (k : json) : Z :=
  match get c k with
  | Some n => n
  | None => 0
  end.

(** [c[k] += 1]: the key is hashed first. *)
Definition incr (c : dict Z) (k : json) : result (dict Z) :=
  if hashable k then Ok (setitem c k (counter_getitem c k + 1))
  else Raise TypeError.

(** [self.lexicon.keys()]: only a dict has the method. *)
Definition keys (lexicon : json) : result (list string) :=
  match lexicon with
  | JObj members => Ok (map fst members)
  | _ => Raise AttributeError
  end.

(** [self.lexicon[word]] *)
Definition getitem (lexicon : json) (word : string) : result json :=
  match lexicon with
  | JObj members => PyDict.getitem members word
  | _ => Raise TypeError
  end.

(** Lines 132-135. *)
Definition match_step (lexicon : json) (lexicon_keys : list string)
    (acc : list json * PyDict.t json) (word : string)
    : result (list json * PyDict.t json) :=
  let '(affect_list, affect_dict) := acc in
  if existsb (String.eqb word) lexicon_keys then
    value ← getitem lexicon word;
    items ← iterate value;
    let affect_list := affect_list ++ items in
    value' ← getitem lexicon word;
    Ok (affect_list, PyDict.setitem affect_dict word value')
  else Ok (affect_list, affect_dict).

(** Lines 141-144. *)
Definition percent_step (affect_frequencies : dict Z) (sum_values : Z)
    (acc : dict Py.float) (key : json) : result (dict Py.float) :=
  v ← Py.truediv (Py.float_of_int (counter_getitem affect_frequencies key))
                 (Py.float_of_int sum_values);
  Ok (setitem acc key v).

(** Lines 126-144 of [build_word_affect]: the local values, computed from
    the lexicon and the token sequence. *)
Definition analysis (lexicon : json) (words : list string)
    : result (list json * PyDict.t json * dict Z * dict Py.float) :=
  lexicon_keys ← keys lexicon;
  '(affect_list, affect_dict) ←
      for_each (match_step lexicon lexicon_keys) words ([], []);
  affect_frequencies ← for_each incr affect_list [];
  let sum_values := Py.sum (map snd affect_frequencies) in
  affect_percent ←
      for_each (percent_step affect_frequencies sum_values)
               (map fst affect_frequencies) [];
  Ok (affect_list, affect_dict, affect_frequencies, affect_percent).

Record NRCLex : Type := mkNRCLex {
  lexicon : json;
  words : list string;
  affect_list : list json;
  affect_dict : PyDict.t json;
  raw_emotion_scores : dict Z;
  affect_frequencies : dict Py.float
}.

Record state : Type := mkState {
  self : NRCLex;
  opened : list Path
}.

Definition method (A : Type) : Type := state -> result A * state.

#[global] Instance method_ret : MRet method := fun A a st => (Ok a, st).
#[global] Instance method_bind : MBind method := fun A B f m st =>
  match m st with
  | (Ok a, st') => f a st'
  | (Raise e, st') => (Raise e, st')
  end.

Definition local {A : Type} (r : result A) : method A := fun st => (r, st).

Definition getattr {A : Type} (field : NRCLex -> A) : method A :=
  fun st => (Ok (field (self st)), st).

Definition assign (update : NRCLex -> NRCLex) : method unit :=
  fun st => (Ok tt, mkState (update (self st)) (opened st)).

Definition set_lexicon (v : json) (o : NRCLex) : NRCLex :=
  mkNRCLex v (words o) (affect_list o) (affect_dict o)
           (raw_emotion_scores o) (affect_frequencies o).
Definition set_words (v : list string) (o : NRCLex) : NRCLex :=
  mkNRCLex (lexicon o) v (affect_list o) (affect_dict o)
           (raw_emotion_scores o) (affect_frequencies o).
Definition set_affect_list (v : list json) (o : NRCLex) : NRCLex :=
  mkNRCLex (lexicon o) (words o) v (affect_dict o)
           (raw_emotion_scores o) (affect_frequencies o).
Definition set_affect_dict (v : PyDict.t json) (o : NRCLex) : NRCLex :=
  mkNRCLex (lexicon o) (words o) (affect_list o) v
           (raw_emotion_scores o) (affect_frequencies o).
Definition set_raw_emotion_scores (v : dict Z) (o : NRCLex) : NRCLex :=
  mkNRCLex (lexicon o) (words o) (affect_list o) (affect_dict o)
           v (affect_frequencies o).
Definition set_affect_frequencies (v : dict Py.float) (o : NRCLex) : NRCLex :=
  mkNRCLex (lexicon o) (words o) (affect_list o) (affect_dict o)
           (raw_emotion_scores o) v.

Definition build_word_affect : method unit :=
  lex ← getattr lexicon;
  ws ← getattr words;
  '(affect_list, affect_dict, affect_frequencies, affect_percent) ←
      local (analysis lex ws);
  assign (set_affect_list affect_list);;
  assign (set_affect_dict affect_dict);;
  assign (set_raw_emotion_scores affect_frequencies);;
  assign (set_affect_frequencies affect_percent).

Definition load_token_list (token_list : list string) : method unit :=
  assign (set_words token_list);;
  build_word_affect.

Section Files.
Variable open_file : Path -> result string.
(** [json.load]: any JSON value. *)
Variable json_load : string -> result json.

Definition open_ (path : Path) : method string :=
  fun st => (open_file path, mkState (self st) (opened st ++ [path])).

Definition load_lexicon (path : Path) : method unit :=
  json_file ← open_ path;
  lex ← local (json_load json_file);
  assign (set_lexicon lex).

End Files.

(** An object right after construction, its lexicon being [lex]. *)
Definition constructed (lex : json) : NRCLex := mkNRCLex lex [] [] [] [] [].

(** A string, and a lexicon of lists of strings, as JSON values. *)
Definition of_string (s : string) : json := JStr s.

Definition of_emotions (emotions : list string) : json :=
  JArr (map of_string emotions).

(** [represents j lex]: the JSON value [j] is an object that maps the
    words of [lex], and no other, to their lists of strings. *)
Definition represents (j : json) (lex : gmap string (list string)) : Prop :=
  exists members,
    j = JObj members /\
    forall w, PyDict.get members w = of_emotions <$> lex !! w.

End Untyped.

(** The dicts and the object of the model on checked lexicons, as those of
    the unchecked one. *)
Definition embed_keys {V : Type} (d : PyDict.t V) : Untyped.dict V :=
  map (fun kv => (Untyped.of_string (fst kv), snd kv)) d.

Definition embed (j : Untyped.json) (o : NRCLex) : Untyped.NRCLex :=
  Untyped.mkNRCLex j (words o)
    (map Untyped.of_string (affect_list o))
    (map (fun kv => (fst kv, Untyped.of_emotions (snd kv))) (affect_dict o))
    (embed_keys (raw_emotion_scores o))
    (embed_keys (affect_frequencies o)).

(** A lexicon file that parses, with an entry that is not a list. *)
Definition unchecked_lexicon : Untyped.json :=
  Untyped.JObj [("a"%string, Untyped.JInt 5);
                ("happy"%string, Untyped.of_emotions ["joy"; "positive"]%string)].

Definition unchecked_state : Untyped.state :=
  Untyped.mkState (Untyped.constructed unchecked_lexicon) [].

(** * Properties *)

(** ** Dicts *)

Section dict_facts.
Context {V : Type}.
Implicit Types (d : PyDict.t V) (k : string) (v : V).

Lemma get_setitem_eq d k v : PyDict.get (PyDict.setitem d k v) k = Some v.
Proof.
  induction d as [|[k' v'] d IH]; simpl.
  - by rewrite String.eqb_refl.
  - destruct (String.eqb_spec k k') as [->|Hne]; simpl.
    + by rewrite String.eqb_refl.
    + by destruct (String.eqb_spec k k').
Qed.

Lemma get_setitem_ne d k k' v :
  k ≠ k' -> PyDict.get (PyDict.setitem d k v) k' = PyDict.get d k'.
Proof.
  intros Hne. induction d as [|[k0 v0] d IH]; simpl.
  - destruct (String.eqb_spec k' k); congruence.
  - destruct (String.eqb_spec k k0) as [->|Hk]; simpl.
    + destruct (String.eqb_spec k' k0); congruence.
    + by rewrite IH.
Qed.

Lemma get_None d k : PyDict.get d k = None <-> k ∉ PyDict.keys d.
Proof.
  induction d as [|[k' v'] d IH]; simpl.
  - split; [intros _; apply not_elem_of_nil | done].
  - rewrite not_elem_of_cons. destruct (String.eqb_spec k k') as [->|Hne].
    + split; [done | intros [? _]; done].
    + rewrite IH. tauto.
Qed.

Lemma get_Some_elem_of d k v : PyDict.get d k = Some v -> (k, v) ∈ d.
Proof.
  induction d as [|[k' v'] d IH]; simpl; [done|].
  destruct (String.eqb_spec k k') as [->|Hne].
  - intros [= ->]. apply list_elem_of_here.
  - intros H. apply list_elem_of_further; auto.
Qed.

Lemma elem_of_get d k v :
  NoDup (PyDict.keys d) -> (k, v) ∈ d -> PyDict.get d k = Some v.
Proof.
  induction d as [|[k' v'] d IH]; simpl.
  - intros _ H. by apply elem_of_nil in H.
  - rewrite NoDup_cons. intros [Hk Hd] [H|H]%elem_of_cons.
    + injection H as -> ->. by rewrite String.eqb_refl.
    + destruct (String.eqb_spec k k') as [->|Hne]; [|by apply IH].
      exfalso. apply Hk. unfold PyDict.keys.
      apply list_elem_of_fmap. by exists (k', v).
Qed.

Lemma setitem_fresh d k v :
  PyDict.get d k = None -> PyDict.setitem d k v = d ++ [(k, v)].
Proof.
  induction d as [|[k' v'] d IH]; simpl; [done|].
  destruct (String.eqb_spec k k'); [done|]. intros H. by rewrite IH.
Qed.

Lemma keys_setitem_present d k v :
  PyDict.get d k <> None -> PyDict.keys (PyDict.setitem d k v) = PyDict.keys d.
Proof.
  induction d as [|[k' v'] d IH]; simpl; [done|].
  destruct (String.eqb_spec k k'); [done|]. intros H. simpl. by rewrite IH.
Qed.

Lemma keys_setitem_NoDup d k v :
  NoDup (PyDict.keys d) -> NoDup (PyDict.keys (PyDict.setitem d k v)).
Proof.
  intros Hd. destruct (PyDict.get d k) eqn:Hget.
  - rewrite keys_setitem_present; [done | congruence].
  - rewrite setitem_fresh by done. unfold PyDict.keys. rewrite map_app. simpl.
    apply NoDup_app. split; [done|]. split.
    + intros x Hx [->|[]%elem_of_nil]%elem_of_cons. by apply get_None in Hget.
    + apply NoDup_singleton.
Qed.

End dict_facts.

(** ** Sums and counters *)

Lemma fold_add_shift (xs : list Z) (a : Z) :
  fold_left Z.add xs a = a + Py.sum xs.
Proof.
  unfold Py.sum. revert a.
  induction xs as [|x xs IH]; intros a; cbn [fold_left]; [lia|].
  rewrite (IH (a + x)), (IH (0 + x)). lia.
Qed.

Lemma sum_cons (x : Z) (xs : list Z) : Py.sum (x :: xs) = x + Py.sum xs.
Proof. unfold Py.sum at 1. simpl. apply fold_add_shift. Qed.

Lemma sum_app (xs ys : list Z) : Py.sum (xs ++ ys) = Py.sum xs + Py.sum ys.
Proof.
  induction xs as [|x xs IH]; simpl; [done|]. rewrite !sum_cons, IH. lia.
Qed.

Lemma sum_values_setitem (c : PyDict.t Z) (k : string) (n : Z) :
  Py.sum (PyDict.values (PyDict.setitem c k n))
  = Py.sum (PyDict.values c) - Counter.getitem c k + n.
Proof.
  unfold Counter.getitem.
  induction c as [|[k' n'] c IH]; simpl.
  - unfold Py.sum. simpl. lia.
  - destruct (String.eqb_spec k k') as [->|Hne]; simpl;
      rewrite !sum_cons; [lia | rewrite IH; lia].
Qed.

Lemma sum_values_incr (c : PyDict.t Z) (k : string) :
  Py.sum (PyDict.values (Counter.incr c k)) = Py.sum (PyDict.values c) + 1.
Proof. unfold Counter.incr. rewrite sum_values_setitem. lia. Qed.

Lemma getitem_incr (c : PyDict.t Z) (k e : string) :
  Counter.getitem (Counter.incr c k) e
  = Counter.getitem c e + (if decide (k = e) then 1 else 0).
Proof.
  unfold Counter.incr. unfold Counter.getitem at 1.
  destruct (decide (k = e)) as [->|Hne].
  - by rewrite get_setitem_eq.
  - rewrite get_setitem_ne by done. unfold Counter.getitem. lia.
Qed.

Lemma values_setitem_Forall {V : Type} (Q : V -> Prop) (d : PyDict.t V)
    (k : string) (v : V) :
  Forall Q (PyDict.values d) -> Q v ->
  Forall Q (PyDict.values (PyDict.setitem d k v)).
Proof.
  intros Hd Hv. induction d as [|[k' v'] d IH]; simpl.
  - by constructor.
  - apply Forall_cons in Hd as [Hv' Hd].
    destruct (String.eqb_spec k k'); simpl; constructor; auto.
Qed.

Lemma getitem_nonneg (c : PyDict.t Z) (k : string) :
  Forall (fun n => 0 < n) (PyDict.values c) -> 0 <= Counter.getitem c k.
Proof.
  intros Hc. unfold Counter.getitem.
  destruct (PyDict.get c k) as [n|] eqn:Hget; [|lia].
  apply get_Some_elem_of in Hget.
  rewrite Forall_forall in Hc. assert (0 < n); [|lia].
  apply Hc. unfold PyDict.values. apply list_elem_of_fmap. by exists (k, n).
Qed.

(** The counting loop, from any counter [c]. *)
Section counting.
Variable al : list string.

Lemma counting_getitem (c : PyDict.t Z) (e : string) :
  Counter.getitem (fold_left Counter.incr al c) e
  = Counter.getitem c e + occurrences e al.
Proof.
  unfold occurrences. revert c.
  induction al as [|w l IH]; intros c; simpl; [lia|].
  rewrite IH, getitem_incr.
  destruct (string_dec w e), (decide (w = e)); try done; lia.
Qed.

Lemma counting_positive (c : PyDict.t Z) :
  Forall (fun n => 0 < n) (PyDict.values c) ->
  Forall (fun n => 0 < n) (PyDict.values (fold_left Counter.incr al c)).
Proof.
  revert c. induction al as [|w l IH]; intros c Hc; simpl; [done|].
  apply IH. apply values_setitem_Forall; [done|].
  pose proof (getitem_nonneg c w Hc). lia.
Qed.

Lemma counting_NoDup (c : PyDict.t Z) :
  NoDup (PyDict.keys c) -> NoDup (PyDict.keys (fold_left Counter.incr al c)).
Proof.
  revert c. induction al as [|w l IH]; intros c Hc; simpl; [done|].
  apply IH. by apply keys_setitem_NoDup.
Qed.

Lemma counting_sum (c : PyDict.t Z) :
  Py.sum (PyDict.values (fold_left Counter.incr al c))
  = Py.sum (PyDict.values c) + Z.of_nat (length al).
Proof.
  revert c. induction al as [|w l IH]; intros c; simpl length; simpl fold_left; [lia|].
  rewrite IH, sum_values_incr. lia.
Qed.

End counting.

Lemma tally_positive (al : list string) :
  Forall (fun n => 0 < n) (PyDict.values (tally al)).
Proof. apply counting_positive. constructor. Qed.

Lemma tally_NoDup (al : list string) : NoDup (PyDict.keys (tally al)).
Proof. apply counting_NoDup. constructor. Qed.

Lemma tally_sum (al : list string) :
  Py.sum (PyDict.values (tally al)) = Z.of_nat (length al).
Proof. unfold tally. rewrite counting_sum. done. Qed.

Lemma tally_getitem (al : list string) (e : string) :
  Counter.getitem (tally al) e = occurrences e al.
Proof. unfold tally. rewrite counting_getitem. done. Qed.

(** A label is a key of the tally exactly when it occurs, and its count is
    the number of its occurrences. *)
Lemma tally_get (al : list string) (e : string) (n : Z) :
  PyDict.get (tally al) e = Some n <-> n = occurrences e al /\ 0 < n.
Proof.
  pose proof (tally_getitem al e) as Hg. unfold Counter.getitem in Hg.
  split.
  - intros Hget. rewrite Hget in Hg. split; [done|].
    pose proof (tally_positive al) as Hpos. rewrite Forall_forall in Hpos.
    apply Hpos. apply get_Some_elem_of in Hget.
    unfold PyDict.values. apply list_elem_of_fmap. by exists (e, n).
  - intros [-> Hpos]. destruct (PyDict.get (tally al) e); [congruence | lia].
Qed.

Lemma tally_nil_iff (al : list string) : tally al = [] <-> al = [].
Proof.
  split; [|by intros ->].
  intros H. pose proof (tally_sum al) as Hs. rewrite H in Hs.
  destruct al; [done | simpl in Hs; unfold Py.sum in Hs; simpl in Hs; lia].
Qed.

(** ** The loops of [build_word_affect] *)

Lemma lexicon_contains_Some (lex : gmap string (list string)) (w : string)
    (emotions : list string) :
  lex !! w = Some emotions -> lexicon_contains lex w = true.
Proof.
  intros H. apply bool_decide_eq_true. apply elem_of_dom. by exists emotions.
Qed.

Lemma lexicon_contains_None (lex : gmap string (list string)) (w : string) :
  lex !! w = None -> lexicon_contains lex w = false.
Proof.
  intros H. apply bool_decide_eq_false. rewrite elem_of_dom, H.
  by intros [? ?].
Qed.

Lemma match_loop (lex : gmap string (list string)) (ws al : list string)
    (ad : PyDict.t (list string)) :
  for_each (match_step lex) ws (al, ad)
  = Ok (al ++ matched_emotions lex ws,
        fold_left (fun d w => match lex !! w with
                              | Some emotions => PyDict.setitem d w emotions
                              | None => d
                              end) ws ad).
Proof.
  unfold matched_emotions. revert al ad.
  induction ws as [|w ws IH]; intros al ad; simpl.
  - by rewrite app_nil_r.
  - unfold lexicon_getitem. destruct (lex !! w) as [emotions|] eqn:Hw.
    + rewrite (lexicon_contains_Some _ _ _ Hw). simpl.
      rewrite IH. by rewrite <- app_assoc.
    + rewrite (lexicon_contains_None _ _ Hw). simpl. apply IH.
Qed.

Lemma truediv_nonzero (c total : Z) :
  total <> 0 ->
  Py.truediv (Py.float_of_int c) (Py.float_of_int total)
  = Ok (Qred (inject_Z c / inject_Z total)).
Proof.
  intros Hne. unfold Py.truediv, Py.float_of_int.
  destruct (Qeq_bool (inject_Z total) 0) eqn:Heq; [|done].
  apply Qeq_bool_eq in Heq. unfold Qeq in Heq. simpl in Heq. lia.
Qed.

Lemma percent_step_ok (c : PyDict.t Z) (total : Z) (acc : PyDict.t Py.float)
    (k : string) (n : Z) :
  total <> 0 ->
  PyDict.get c k = Some n ->
  percent_step c total acc k
  = Ok (PyDict.setitem acc k (Qred (inject_Z n / inject_Z total))).
Proof.
  intros Hne Hget. unfold percent_step, Counter.getitem.
  rewrite Hget, truediv_nonzero by done. done.
Qed.

Lemma percent_loop (c : PyDict.t Z) (total : Z) (seg : PyDict.t Z)
    (acc : PyDict.t Py.float) :
  total <> 0 ->
  NoDup (PyDict.keys acc ++ PyDict.keys seg) ->
  (forall k n, (k, n) ∈ seg -> PyDict.get c k = Some n) ->
  for_each (percent_step c total) (PyDict.keys seg) acc
  = Ok (acc ++ map (fun kc => (fst kc, Qred (inject_Z (snd kc) / inject_Z total))) seg).
Proof.
  intros Hne. revert acc.
  induction seg as [|[k n] seg IH]; intros acc Hnd Hget; simpl.
  - by rewrite app_nil_r.
  - rewrite (percent_step_ok c total acc k n Hne)
      by apply Hget, list_elem_of_here.
    simpl.
    assert (PyDict.get acc k = None) as Hfresh.
    { apply get_None. intros Hin. apply NoDup_app in Hnd as (_ & Hdisj & _).
      apply (Hdisj k Hin). apply list_elem_of_here. }
    rewrite setitem_fresh by done.
    rewrite IH.
    + by rewrite <- app_assoc.
    + unfold PyDict.keys in *. rewrite map_app. simpl.
      rewrite <- app_assoc. simpl. done.
    + intros k' n' Hin. apply Hget. by apply list_elem_of_further.
Qed.

Lemma percent_total (c : PyDict.t Z) :
  NoDup (PyDict.keys c) ->
  Forall (fun n => 0 < n) (PyDict.values c) ->
  for_each (percent_step c (Py.sum (PyDict.values c))) (PyDict.keys c) PyDict.empty
  = Ok (frequencies c).
Proof.
  intros Hnd Hpos. destruct c as [|[k n] c'] eqn:Hc; [done|]. rewrite <- Hc in *.
  assert (Py.sum (PyDict.values c) <> 0) as Hne.
  { rewrite Hc in *. simpl in *. rewrite sum_cons.
    apply Forall_cons in Hpos as [Hn Hpos].
    assert (0 <= Py.sum (PyDict.values c')); [|lia].
    clear -Hpos. induction Hpos as [|x xs Hx _ IH].
    - done.
    - rewrite sum_cons. lia. }
  rewrite (percent_loop c _ c PyDict.empty Hne); [done|done|].
  intros k' n'. by apply elem_of_get.
Qed.

(** [build_word_affect] never raises: it leaves the object recomputed from
    the lexicon and the current token sequence. *)
Lemma build_word_affect_run (st : state) :
  build_word_affect st
  = (Ok tt, mkState (recomputed (lexicon (self st)) (words (self st)))
                    (opened st)).
Proof.
  unfold build_word_affect, mbind, method_bind, getattr, local, assign.
  rewrite match_loop. simpl.
  rewrite percent_total by (apply tally_NoDup || apply tally_positive).
  done.
Qed.

Lemma load_token_list_run (token_list : list string) (st : state) :
  load_token_list token_list st
  = (Ok tt, mkState (recomputed (lexicon (self st)) token_list) (opened st)).
Proof.
  unfold load_token_list, mbind, method_bind, assign.
  by rewrite build_word_affect_run.
Qed.

(** ** [max] and the loop of [top_emotions] *)

Lemma gt_false_le (y m : Py.float) : Py.gt y m = false -> (y <= m)%Q.
Proof.
  unfold Py.gt. intros H. apply negb_false_iff in H. by apply Qle_bool_iff.
Qed.

Lemma gt_true_lt (y m : Py.float) : Py.gt y m = true -> (m < y)%Q.
Proof.
  unfold Py.gt. intros H. apply negb_true_iff in H.
  apply Qnot_le_lt. intros Hle. apply Qle_bool_iff in Hle. congruence.
Qed.

Lemma max_loop (xs : list Py.float) (x : Py.float) :
  let m := fold_left (fun m y => if Py.gt y m then y else m) xs x in
  m ∈ x :: xs /\ forall y, y ∈ x :: xs -> (y <= m)%Q.
Proof.
  revert x. induction xs as [|y xs IH]; intros x; simpl.
  - split; [apply list_elem_of_here|].
    intros y [->|[]%elem_of_nil]%elem_of_cons. apply Qle_refl.
  - destruct (Py.gt y x) eqn:Hgt.
    + destruct (IH y) as [Hin Hle]. split.
      * by apply list_elem_of_further.
      * intros z [->|Hz]%elem_of_cons; [|by apply Hle].
        apply Qle_trans with y; [|apply Hle, list_elem_of_here].
        apply Qlt_le_weak. by apply gt_true_lt.
    + destruct (IH x) as [Hin Hle]. split.
      * apply elem_of_cons in Hin as [->|Hin]; [apply list_elem_of_here|].
        by do 2 apply list_elem_of_further.
      * intros z [->|[->|Hz]%elem_of_cons]%elem_of_cons.
        -- apply Hle, list_elem_of_here.
        -- apply Qle_trans with x; [by apply gt_false_le|].
           apply Hle, list_elem_of_here.
        -- by apply Hle, list_elem_of_further.
Qed.

Lemma max_nonempty (xs : list Py.float) :
  xs <> [] ->
  exists m, Py.max xs = Ok m /\ m ∈ xs /\ forall y, y ∈ xs -> (y <= m)%Q.
Proof.
  destruct xs as [|x xs]; [done|]. intros _. eexists. split; [done|].
  apply max_loop.
Qed.

Lemma top_step_ok (freqs : PyDict.t Py.float) (max_value : Py.float)
    (top : list (string * Py.float)) (k : string) (v : Py.float) :
  PyDict.get freqs k = Some v ->
  top_step freqs max_value top k
  = Ok (if Py.eq v max_value then top ++ [(k, max_value)] else top).
Proof.
  intros Hget. unfold top_step, PyDict.getitem. rewrite Hget. simpl.
  by destruct (Py.eq v max_value).
Qed.

Lemma top_loop (freqs seg : PyDict.t Py.float) (max_value : Py.float)
    (top : list (string * Py.float)) :
  (forall k v, (k, v) ∈ seg -> PyDict.get freqs k = Some v) ->
  for_each (top_step freqs max_value) (PyDict.keys seg) top
  = Ok (top ++ map (fun kv => (fst kv, max_value))
                   (List.filter (fun kv => Py.eq (snd kv) max_value) seg)).
Proof.
  revert top. induction seg as [|[k v] seg IH]; intros top Hget; simpl.
  - by rewrite app_nil_r.
  - rewrite (top_step_ok freqs max_value top k v)
      by apply Hget, list_elem_of_here.
    destruct (Py.eq v max_value); simpl.
    + rewrite IH.
      * by rewrite <- app_assoc.
      * intros k' v' Hin. by apply Hget, list_elem_of_further.
    + apply IH. intros k' v' Hin. by apply Hget, list_elem_of_further.
Qed.

Lemma frequencies_canonical (counts : PyDict.t Z) : canonical (frequencies counts).
Proof.
  unfold canonical, frequencies, PyDict.values. rewrite map_map. simpl.
  apply Forall_forall. intros v [kc [-> _]]%list_elem_of_fmap.
  apply Qred_complete, Qred_correct.
Qed.

Lemma canonical_eq (x y : Q) : Qred x = x -> Qred y = y -> (x == y)%Q -> x = y.
Proof. intros Hx Hy Heq. rewrite <- Hx, <- Hy. by apply Qred_complete. Qed.

Lemma frequencies_keys (counts : PyDict.t Z) :
  PyDict.keys (frequencies counts) = PyDict.keys counts.
Proof. unfold frequencies, PyDict.keys. rewrite map_map. done. Qed.

(** [top_emotions] on a non-empty frequency map: the labels at the largest
    frequency, each paired with it, in the order of the map. *)
Lemma top_emotions_run (st : state) :
  let freqs := affect_frequencies (self st) in
  freqs <> [] ->
  NoDup (PyDict.keys freqs) ->
  exists max_value,
    Py.max (PyDict.values freqs) = Ok max_value /\
    max_value ∈ PyDict.values freqs /\
    (forall v, v ∈ PyDict.values freqs -> (v <= max_value)%Q) /\
    top_emotions st
    = (Ok (map (fun kv => (fst kv, max_value))
               (List.filter (fun kv => Py.eq (snd kv) max_value) freqs)), st).
Proof.
  intros freqs Hne Hnd.
  destruct (max_nonempty (PyDict.values freqs)) as (m & Hmax & Hin & Hle).
  { unfold PyDict.values. by destruct freqs. }
  exists m. repeat split; try done.
  unfold top_emotions, mbind, method_bind, getattr, local. fold freqs.
  rewrite Hmax, top_loop; [done|].
  intros k v. by apply elem_of_get.
Qed.

(** ** What the recomputed fields contain *)

Lemma matched_emotions_none (lex : gmap string (list string))
    (tokens : list string) :
  (forall w, w ∈ tokens -> lex !! w = None) ->
  matched_emotions lex tokens = [] /\ matched_map lex tokens = [].
Proof.
  unfold matched_emotions, matched_map. generalize (@nil (string * list string)).
  induction tokens as [|w ws IH]; intros d Hnone; simpl; [done|].
  rewrite (Hnone w) by apply list_elem_of_here.
  apply IH. intros w' Hin. by apply Hnone, list_elem_of_further.
Qed.

(** The matched map is the lexicon restricted to the tokens. *)
Lemma matched_map_get (lex : gmap string (list string)) (tokens : list string)
    (w : string) :
  PyDict.get (matched_map lex tokens) w
  = if decide (w ∈ tokens) then lex !! w else None.
Proof.
  unfold matched_map.
  assert (forall d : PyDict.t (list string),
    PyDict.get
      (fold_left (fun d w => match lex !! w with
                             | Some emotions => PyDict.setitem d w emotions
                             | None => d
                             end) tokens d) w
    = if decide (w ∈ tokens)
      then match lex !! w with Some e => Some e | None => PyDict.get d w end
      else PyDict.get d w) as Hgen.
  { induction tokens as [|x xs IH]; intros d; simpl.
    - destruct (decide (w ∈ [])) as [[]%elem_of_nil|]; done.
    - rewrite IH. destruct (decide (x = w)) as [->|Hne].
      + destruct (decide (w ∈ w :: xs)) as [_|Hn];
          [|exfalso; apply Hn, list_elem_of_here].
        destruct (lex !! w) eqn:Hw; [|by destruct (decide (w ∈ xs))].
        rewrite get_setitem_eq. by destruct (decide (w ∈ xs)).
      + destruct (decide (w ∈ xs)) as [Hin|Hnin].
        * destruct (decide (w ∈ x :: xs)) as [_|Hn];
            [|exfalso; by apply Hn, list_elem_of_further].
          destruct (lex !! w); [done|].
          destruct (lex !! x); [by rewrite get_setitem_ne|done].
        * destruct (decide (w ∈ x :: xs)) as [[?|?]%elem_of_cons|_]; try done.
          destruct (lex !! x); [by rewrite get_setitem_ne|done]. }
  rewrite Hgen. simpl. by destruct (lex !! w), (decide (w ∈ tokens)).
Qed.

Lemma get_map_values {V W : Type} (g : V -> W) (d : PyDict.t V) (k : string) :
  PyDict.get (map (fun kv => (fst kv, g (snd kv))) d) k = g <$> PyDict.get d k.
Proof.
  induction d as [|[k' v] d IH]; simpl; [done|].
  by destruct (String.eqb k k').
Qed.

Lemma frequencies_get (counts : PyDict.t Z) (e : string) :
  PyDict.get (frequencies counts) e
  = (fun c => Qred (inject_Z c / inject_Z (Py.sum (PyDict.values counts))))
      <$> PyDict.get counts e.
Proof.
  exact (get_map_values
           (fun c => Qred (inject_Z c / inject_Z (Py.sum (PyDict.values counts))))
           counts e).
Qed.

Lemma Qsum_scaled (c : PyDict.t Z) (t : Z) :
  (Qsum (map (fun kc => Qred (inject_Z (snd kc) / inject_Z t)) c)
   == inject_Z (Py.sum (PyDict.values c)) / inject_Z t)%Q.
Proof.
  induction c as [|[k n] c IH]; simpl.
  - unfold Py.sum. simpl. unfold Qdiv. by rewrite Qmult_0_l.
  - rewrite IH, Qred_correct, sum_cons, inject_Z_plus.
    unfold Qdiv. by rewrite Qmult_plus_distr_l.
Qed.

Lemma frequencies_sum (c : PyDict.t Z) :
  Py.sum (PyDict.values c) <> 0 ->
  (Qsum (PyDict.values (frequencies c)) == 1)%Q.
Proof.
  intros Hne. unfold frequencies, PyDict.values. rewrite map_map. simpl.
  rewrite Qsum_scaled. apply Qmult_inv_r.
  intros Heq. unfold Qeq in Heq. simpl in Heq. unfold PyDict.values in Hne. lia.
Qed.

Lemma filter_keys_NoDup {V : Type} (f : string * V -> bool) (m : V)
    (d : PyDict.t V) :
  NoDup (PyDict.keys d) ->
  NoDup (map (fun kv => (fst kv, m)) (List.filter f d)).
Proof.
  induction d as [|[k v] d IH]; simpl; [constructor|].
  rewrite NoDup_cons. intros [Hk Hd]. destruct (f (k, v)); simpl; [|auto].
  apply NoDup_cons. split; [|auto].
  intros [[k' v'] [Heq Hin]]%list_elem_of_fmap.
  simpl in Heq. injection Heq as <-.
  apply list_elem_of_In, filter_In in Hin as [Hin _].
  apply Hk. unfold PyDict.keys. apply list_elem_of_fmap.
  exists (k, v'). split; [done | by apply list_elem_of_In].
Qed.

(** The accessor on a frequency map as a load leaves it. *)
Lemma top_emotions_spec (st : state) :
  let freqs := affect_frequencies (self st) in
  freqs <> [] ->
  NoDup (PyDict.keys freqs) ->
  canonical freqs ->
  exists top,
    top_emotions st = (Ok top, st) /\
    NoDup top /\
    forall k v, (k, v) ∈ top <->
      PyDict.get freqs k = Some v /\
      forall k' v', PyDict.get freqs k' = Some v' -> (v' <= v)%Q.
Proof.
  intros freqs Hne Hnd Hcan.
  destruct (top_emotions_run st Hne Hnd) as (m & _ & Hin & Hle & Hrun).
  fold freqs in Hin, Hle, Hrun.
  eexists. split; [exact Hrun|]. split; [by apply filter_keys_NoDup|].
  unfold canonical in Hcan. rewrite Forall_forall in Hcan.
  assert (forall k v, (k, v) ∈ freqs -> v ∈ PyDict.values freqs) as Hval.
  { intros k v H. unfold PyDict.values. apply list_elem_of_fmap. by exists (k, v). }
  intros k v. split.
  - intros [[k0 v0] [[= -> ->] Hf]]%list_elem_of_fmap.
    apply list_elem_of_In, filter_In in Hf as [Hf Heq].
    apply list_elem_of_In in Hf. simpl in Heq.
    apply Qeq_bool_eq in Heq.
    assert (v0 = m) as ->.
    { apply canonical_eq; [apply Hcan; by eapply Hval | by apply Hcan | done]. }
    split; [by apply elem_of_get|].
    intros k' v' Hget. apply Hle. eapply Hval. by apply get_Some_elem_of.
  - intros [Hget Hmax].
    assert (v = m) as ->.
    { apply list_elem_of_fmap in Hin as [[km vm] [-> Hm]]. simpl in *.
      apply canonical_eq.
      - apply Hcan. eapply Hval. by apply get_Some_elem_of.
      - apply Hcan. by eapply Hval.
      - apply Qle_antisym.
        + apply Hle. eapply Hval. by apply get_Some_elem_of.
        + apply (Hmax km). by apply elem_of_get. }
    apply list_elem_of_fmap. exists (k, m). split; [done|].
    apply list_elem_of_In, filter_In. split.
    + apply list_elem_of_In. by apply get_Some_elem_of.
    + simpl. apply Qeq_bool_iff. apply Qeq_refl.
Qed.

Lemma top_emotions_empty (st : state) :
  affect_frequencies (self st) = [] ->
  top_emotions st = (Raise ValueError, st).
Proof.
  intros H. unfold top_emotions, mbind, method_bind, getattr, local.
  by rewrite H.
Qed.

(** * The claims of the specification *)

(** C2. For every token sequence and lexicon, a load succeeds and leaves as
    matched-emotion list the concatenation, in token order, of the whole
    emotion list of every token that is a key of the lexicon (duplicates
    and the order inside each list kept); its length is the sum of the
    lengths of those lists. *)
Theorem matched_list_is_concatenation (st : state) (token_list : list string) :
  let lex := lexicon (self st) in
  let out := load_token_list token_list st in
  fst out = Ok tt /\
  affect_list (self (snd out)) = concat (omap (fun w => lex !! w) token_list) /\
  length (affect_list (self (snd out)))
  = sum_list (map length (omap (fun w => lex !! w) token_list)).
Proof.
  intros lex out. unfold out. rewrite load_token_list_run. simpl.
  split; [done|]. split; [done|].
  unfold matched_emotions. fold lex.
  induction (omap (fun w => lex !! w) token_list) as [|l ls IH]; simpl; [done|].
  by rewrite length_app, IH.
Qed.

(** C8. For every lexicon, loading the empty token sequence succeeds and
    leaves an empty matched-emotion list and an empty matched map. *)
Theorem empty_token_list_loads (st : state) :
  let out := load_token_list [] st in
  fst out = Ok tt /\
  words (self (snd out)) = [] /\
  affect_list (self (snd out)) = [] /\
  affect_dict (self (snd out)) = [].
Proof. intros out. unfold out. by rewrite load_token_list_run. Qed.

(** C1, as stated, fails: with the lexicon of the scenario and the single
    token "tree", which is not a key, the load returns normally; no
    [ZeroDivisionError] is raised. *)
Lemma zero_match_load_returns :
  (forall w, w ∈ ["tree"%string] -> demo_lexicon !! w = None) /\
  load_token_list ["tree"%string] demo_state
  = (Ok tt, mkState (mkNRCLex demo_lexicon ["tree"%string] [] [] [] []) []) /\
  fst (load_token_list ["tree"%string] demo_state) <> Raise ZeroDivisionError.
Proof.
  split; [|split].
  - intros w Hw. apply list_elem_of_singleton in Hw as ->. reflexivity.
  - reflexivity.
  - discriminate.
Qed.

(** C1, amended. If no token is a key of the lexicon, the load succeeds:
    the matched-emotion list and the raw counts are empty, their total is
    zero, and the frequency map is empty, because the comprehension that
    divides runs over no key. *)
Theorem zero_match_load (st : state) (token_list : list string) :
  (forall w, w ∈ token_list -> lexicon (self st) !! w = None) ->
  let out := load_token_list token_list st in
  fst out = Ok tt /\
  affect_list (self (snd out)) = [] /\
  raw_emotion_scores (self (snd out)) = [] /\
  Py.sum (PyDict.values (raw_emotion_scores (self (snd out)))) = 0 /\
  affect_frequencies (self (snd out)) = [].
Proof.
  intros Hnone out. unfold out. rewrite load_token_list_run. simpl.
  destruct (matched_emotions_none _ _ Hnone) as [-> _]. done.
Qed.

Lemma zero_match_load_witness :
  (forall w, w ∈ ["tree"%string] -> lexicon (self demo_state) !! w = None) /\
  affect_frequencies
    (self (snd (load_token_list ["tree"%string] demo_state))) = [].
Proof.
  assert (forall w, w ∈ ["tree"%string] -> lexicon (self demo_state) !! w = None)
    as Hnone.
  { intros w Hw. apply list_elem_of_singleton in Hw as ->. reflexivity. }
  split; [exact Hnone|].
  apply (zero_match_load demo_state ["tree"%string] Hnone).
Defined.

(** C10. Reading [top_emotions] while the frequency map is empty raises
    [ValueError] (the maximum of no value) and changes nothing; this is so
    on a freshly constructed object, and after a load in which no token is
    a key of the lexicon, a load that itself returns normally. *)
Theorem top_emotions_of_empty_map_raises
    (open_file : Path -> result string)
    (json_load : string -> result (gmap string (list string)))
    (nrc_en_json : Path) (st : state) (lexicon_file : pyobj)
    (log : list Path) (token_list : list string) :
  (affect_frequencies (self st) = [] ->
   top_emotions st = (Raise ValueError, st)) /\
  (forall o log',
     construct open_file json_load nrc_en_json lexicon_file log = (Ok o, log') ->
     top_emotions (mkState o log') = (Raise ValueError, mkState o log')) /\
  ((forall w, w ∈ token_list -> lexicon (self st) !! w = None) ->
   let out := load_token_list token_list st in
   fst out = Ok tt /\ top_emotions (snd out) = (Raise ValueError, snd out)).
Proof.
  split; [apply top_emotions_empty|]. split.
  - intros o log' Hnew. apply top_emotions_empty. simpl.
    unfold construct in Hnew.
    destruct (__init__ _ _ _ _ _) as [[[]|e] st'] eqn:Hinit; [|done].
    injection Hnew as <- <-.
    unfold __init__, mbind, method_bind, assign in Hinit. simpl in Hinit.
    repeat match type of Hinit with
           | context [match ?m with _ => _ end] => destruct m as [[?|?] ?]; simpl in Hinit
           end; try done; by injection Hinit as <-.
  - intros Hnone out. unfold out. rewrite load_token_list_run. simpl.
    split; [done|]. apply top_emotions_empty. simpl.
    by destruct (matched_emotions_none _ _ Hnone) as [-> _].
Qed.

Lemma top_emotions_of_empty_map_raises_witness :
  top_emotions demo_state = (Raise ValueError, demo_state) /\
  top_emotions (mkState (constructed demo_lexicon) ["nrc_en.json"%string])
  = (Raise ValueError, mkState (constructed demo_lexicon) ["nrc_en.json"%string]) /\
  top_emotions (snd (load_token_list ["tree"%string] demo_state))
  = (Raise ValueError, snd (load_token_list ["tree"%string] demo_state)).
Proof.
  destruct (top_emotions_of_empty_map_raises demo_open_file demo_json_load
              "nrc_en.json"%string demo_state (PyStr "NRCLex") []
              ["tree"%string]) as (Hempty & Hnew & Hload).
  split; [apply Hempty; reflexivity|]. split.
  - apply Hnew. reflexivity.
  - apply Hload. intros w Hw. apply list_elem_of_singleton in Hw as ->.
    reflexivity.
Defined.

(** C3. After a load that leaves a non-empty frequency map, [top_emotions]
    returns, without repetition, exactly the pairs (label, frequency) of the
    map whose frequency is the largest one: a returned label has its
    frequency, no label has a larger one, and every label at the largest
    frequency is returned. *)
Theorem top_emotions_are_the_maxima (st : state) (token_list : list string) :
  let st' := snd (load_token_list token_list st) in
  let freqs := affect_frequencies (self st') in
  freqs <> [] ->
  exists top,
    top_emotions st' = (Ok top, st') /\
    NoDup top /\
    forall k v, (k, v) ∈ top <->
      PyDict.get freqs k = Some v /\
      forall k' v', PyDict.get freqs k' = Some v' -> (v' <= v)%Q.
Proof.
  intros st' freqs Hne. apply top_emotions_spec; [done| |];
    unfold freqs, st'; rewrite load_token_list_run; simpl.
  - rewrite frequencies_keys. apply tally_NoDup.
  - apply frequencies_canonical.
Qed.

Lemma top_emotions_are_the_maxima_witness :
  affect_frequencies (self (snd (load_token_list demo_tokens demo_state))) <> [] /\
  exists top,
    top_emotions (snd (load_token_list demo_tokens demo_state))
    = (Ok top, snd (load_token_list demo_tokens demo_state)) /\
    NoDup top /\
    forall k v, (k, v) ∈ top <->
      PyDict.get (affect_frequencies
                    (self (snd (load_token_list demo_tokens demo_state)))) k
      = Some v /\
      forall k' v',
        PyDict.get (affect_frequencies
                      (self (snd (load_token_list demo_tokens demo_state)))) k'
        = Some v' -> (v' <= v)%Q.
Proof.
  assert (affect_frequencies
            (self (snd (load_token_list demo_tokens demo_state))) <> [])
    as Hne by (vm_compute; discriminate).
  split; [exact Hne|].
  exact (top_emotions_are_the_maxima demo_state demo_tokens Hne).
Defined.

(** The scenario of the specification, evaluated. *)
Example scenario_top_emotions :
  top_emotions (snd (load_token_list demo_tokens demo_state))
  = (Ok [("joy"%string, 1 # 3); ("positive"%string, 1 # 3)]%Q,
     snd (load_token_list demo_tokens demo_state)).
Proof. reflexivity. Qed.

Example scenario_derived_state :
  let o := self (snd (load_token_list demo_tokens demo_state)) in
  affect_list o
  = ["joy"; "positive"; "joy"; "positive"; "sadness"; "negative"]%string /\
  affect_dict o
  = [("happy", ["joy"; "positive"]); ("sad", ["sadness"; "negative"])]%string /\
  raw_emotion_scores o
  = [("joy", 2); ("positive", 2); ("sadness", 1); ("negative", 1)]%string /\
  affect_frequencies o
  = [("joy"%string, 1 # 3); ("positive"%string, 1 # 3);
     ("sadness"%string, 1 # 6); ("negative"%string, 1 # 6)]%Q.
Proof. repeat split. Qed.

(** C4, as stated, fails: a token may be a key of the lexicon and yet bring
    no emotion.  With the lexicon [{"a": []}] and the token "a" there is a
    lexicon match, the load returns normally, the frequency map is empty and
    its sum is 0, not 1. *)
Lemma match_without_emotion_sums_to_zero :
  let out := load_token_list ["a"%string] (mkState (constructed hollow_lexicon) []) in
  (exists w, w ∈ ["a"%string] /\ is_Some (hollow_lexicon !! w)) /\
  fst out = Ok tt /\
  affect_dict (self (snd out)) = [("a"%string, [])] /\
  affect_frequencies (self (snd out)) = [] /\
  ~ (Qsum (PyDict.values (affect_frequencies (self (snd out)))) == 1)%Q.
Proof.
  simpl. split; [|repeat split; discriminate].
  exists "a"%string. split; [apply list_elem_of_here | by eexists].
Qed.

(** When every word of the lexicon carries an emotion, one matching token
    is enough for a non-empty matched-emotion list. *)
Lemma matched_emotions_nonempty (lex : gmap string (list string))
    (tokens : list string) (w : string) :
  (forall k emotions, lex !! k = Some emotions -> emotions <> []) ->
  w ∈ tokens -> is_Some (lex !! w) ->
  matched_emotions lex tokens <> [].
Proof.
  intros Hfull Hin [emotions Hw]. unfold matched_emotions.
  induction tokens as [|x xs IH]; [by apply elem_of_nil in Hin|].
  simpl. apply elem_of_cons in Hin as [<-|Hin].
  - rewrite Hw. simpl. intros [Hnil _]%app_eq_nil. by apply (Hfull w emotions).
  - destruct (lex !! x); simpl; [|by apply IH].
    intros [_ Hnil]%app_eq_nil. by apply IH.
Qed.

(** C4, amended. After a load whose matched-emotion list is not empty (at
    least one matched emotion occurrence), the total of the raw counts is
    the length of that list and is positive, a label has a frequency
    exactly when it has a raw count, its frequency is its raw count over
    the total, and the frequencies sum to 1 (over the rationals). *)
Theorem frequencies_are_a_distribution (st : state) (token_list : list string) :
  let out := load_token_list token_list st in
  let counts := raw_emotion_scores (self (snd out)) in
  let freqs := affect_frequencies (self (snd out)) in
  let total := Py.sum (PyDict.values counts) in
  affect_list (self (snd out)) <> [] ->
  fst out = Ok tt /\
  total = Z.of_nat (length (affect_list (self (snd out)))) /\
  0 < total /\
  (forall e, PyDict.get freqs e
             = (fun c => Qred (inject_Z c / inject_Z total)) <$> PyDict.get counts e) /\
  (forall e f, PyDict.get freqs e = Some f ->
     exists c, PyDict.get counts e = Some c /\
               c = occurrences e (affect_list (self (snd out))) /\
               (f == inject_Z c / inject_Z total)%Q) /\
  (Qsum (PyDict.values freqs) == 1)%Q.
Proof.
  intros out counts freqs total. unfold total, freqs, counts, out.
  rewrite load_token_list_run. simpl.
  set (al := matched_emotions (lexicon (self st)) token_list).
  intros Hne.
  assert (0 < Py.sum (PyDict.values (tally al))) as Hpos.
  { rewrite tally_sum. destruct al; [done | simpl; lia]. }
  split; [done|]. split; [apply tally_sum|]. split; [done|].
  split; [|split].
  - intros e. apply frequencies_get.
  - intros e f. rewrite frequencies_get.
    destruct (PyDict.get (tally al) e) as [c|] eqn:Hc; [|done].
    intros [= <-]. exists c. split; [done|]. split.
    + by apply tally_get in Hc as [-> _].
    + apply Qred_correct.
  - apply frequencies_sum. lia.
Qed.

Lemma frequencies_are_a_distribution_witness :
  affect_list (self (snd (load_token_list demo_tokens demo_state))) <> [] /\
  (Qsum (PyDict.values
           (affect_frequencies
              (self (snd (load_token_list demo_tokens demo_state))))) == 1)%Q.
Proof.
  assert (affect_list (self (snd (load_token_list demo_tokens demo_state))) <> [])
    as Hne by (vm_compute; discriminate).
  split; [exact Hne|].
  apply (frequencies_are_a_distribution demo_state demo_tokens Hne).
Defined.

(** C5. Loading A, then B, then A again leaves exactly the object that the
    first load of A left (token sequence, matched-emotion list, matched
    map, raw counts and frequencies), and [top_emotions] answers the same;
    the three loads return normally. *)
Theorem reload_is_idempotent (st : state) (A B : list string) :
  let first := load_token_list A st in
  let second := load_token_list B (snd first) in
  let third := load_token_list A (snd second) in
  fst first = Ok tt /\ fst second = Ok tt /\ fst third = Ok tt /\
  snd third = snd first /\
  affect_list (self (snd third)) = affect_list (self (snd first)) /\
  affect_dict (self (snd third)) = affect_dict (self (snd first)) /\
  raw_emotion_scores (self (snd third)) = raw_emotion_scores (self (snd first)) /\
  affect_frequencies (self (snd third)) = affect_frequencies (self (snd first)) /\
  fst (top_emotions (snd third)) = fst (top_emotions (snd first)).
Proof.
  intros first second third. unfold third, second, first.
  rewrite !load_token_list_run. simpl. repeat split.
Qed.

(** ** Construction and the lexicon *)

Section construction.
Variable open_file : Path -> result string.
Variable json_load : string -> result (gmap string (list string)).
Variable nrc_en_json : Path.

(** [load_lexicon] opens the file, and replaces the lexicon when the file
    opens and parses; otherwise it raises and the object is untouched. *)
Lemma load_lexicon_run (path : Path) (st : state) :
  load_lexicon open_file json_load path st
  = match open_file path ≫= json_load with
    | Ok lex => (Ok tt, mkState (set_lexicon lex (self st)) (opened st ++ [path]))
    | Raise e => (Raise e, mkState (self st) (opened st ++ [path]))
    end.
Proof.
  unfold load_lexicon, open_, mbind, method_bind, result_bind, local, assign.
  destruct (open_file path) as [text|e]; [|done].
  by destruct (json_load text).
Qed.

Lemma construct_from (path : Path) (lexicon_file : pyobj) (log : list Path) :
  lexicon_file = PyPath path
  \/ (lexicon_file = PyStr "NRCLex" /\ path = nrc_en_json) ->
  construct open_file json_load nrc_en_json lexicon_file log
  = match open_file path ≫= json_load with
    | Ok lex => (Ok (constructed lex), log ++ [path])
    | Raise e => (Raise e, log ++ [path])
    end.
Proof.
  intros [->|[-> ->]];
    unfold construct, __init__, mbind, method_bind, assign, local;
    cbn -[load_lexicon]; rewrite load_lexicon_run; unfold mbind;
    by destruct (result_bind _ _ json_load (open_file _)).
Qed.

Lemma construct_rejects (lexicon_file : pyobj) (log : list Path) :
  (forall p, lexicon_file <> PyPath p) ->
  lexicon_file <> PyStr "NRCLex" ->
  construct open_file json_load nrc_en_json lexicon_file log
  = (Raise TypeError, log).
Proof.
  intros Hpath Hname. unfold construct, __init__.
  destruct lexicon_file as [p|s|n|]; simpl; try done.
  - by destruct (Hpath p).
  - unfold py_in. simpl.
    destruct (String.eqb_spec s "NRCLex") as [->|Hne]; [done|]. done.
Qed.

End construction.

(** C7. Constructing the analyzer with an argument that is neither a
    [Path] nor the name of the preinstalled lexicon raises [TypeError]
    before any file is opened; with a [Path], or with the name "NRCLex",
    construction opens that file, respectively the packaged [nrc_en.json],
    and the object holds the lexicon read from it, all other fields
    empty (or the error of reading it is raised). *)
Theorem constructor_checks_its_argument
    (open_file : Path -> result string)
    (json_load : string -> result (gmap string (list string)))
    (nrc_en_json : Path) (lexicon_file : pyobj) (path : Path)
    (log : list Path) :
  let new := construct open_file json_load nrc_en_json in
  let loaded (p : Path) :=
    match open_file p ≫= json_load with
    | Ok lex => (Ok (constructed lex), log ++ [p])
    | Raise e => (Raise e, log ++ [p])
    end in
  ((forall p, lexicon_file <> PyPath p) ->
   lexicon_file <> PyStr "NRCLex" ->
   new lexicon_file log = (Raise TypeError, log)) /\
  new (PyPath path) log = loaded path /\
  new (PyStr "NRCLex") log = loaded nrc_en_json.
Proof.
  intros new loaded. split; [apply construct_rejects|].
  split; apply construct_from; auto.
Qed.

Lemma constructor_checks_its_argument_witness :
  construct demo_open_file demo_json_load "nrc_en.json"%string
            (PyStr "/tmp/lexicon.json") []
  = (Raise TypeError, []) /\
  construct demo_open_file demo_json_load "nrc_en.json"%string
            (PyStr "NRCLex") []
  = (Ok (constructed demo_lexicon), ["nrc_en.json"%string]).
Proof.
  destruct (constructor_checks_its_argument demo_open_file demo_json_load
              "nrc_en.json"%string (PyStr "/tmp/lexicon.json")
              "nrc_en.json"%string []) as (Hreject & _ & Hname).
  split.
  - apply Hreject; [intros p; discriminate | discriminate].
  - rewrite Hname. reflexivity.
Defined.

(** C9. No analysis operation changes the lexicon: after a token load, a
    text load, a recompute or a read of [top_emotions] the lexicon is the
    one before the call.  [load_lexicon] is the operation that replaces
    it, by what it read, and leaves it alone when reading fails. *)
Theorem lexicon_is_read_only
    (open_file : Path -> result string)
    (json_load : string -> result (gmap string (list string)))
    (blob_words : string -> list string) (lemma : string -> string)
    (st : state) (token_list : list string) (text : string) (path : Path) :
  lexicon (self (snd (load_token_list token_list st))) = lexicon (self st) /\
  lexicon (self (snd (load_raw_text blob_words lemma text st))) = lexicon (self st) /\
  lexicon (self (snd (build_word_affect st))) = lexicon (self st) /\
  snd (top_emotions st) = st /\
  match open_file path ≫= json_load with
  | Ok lex =>
      lexicon (self (snd (load_lexicon open_file json_load path st))) = lex
  | Raise _ =>
      lexicon (self (snd (load_lexicon open_file json_load path st)))
      = lexicon (self st)
  end.
Proof.
  unfold load_raw_text.
  rewrite !load_token_list_run, build_word_affect_run, load_lexicon_run.
  repeat split.
  - unfold top_emotions, mbind, method_bind, getattr, local.
    destruct (Py.max _); [|done]. by destruct (for_each _ _ _).
  - by destruct (open_file path ≫= json_load).
Qed.

Example resource_names :
  map resource_name libraries = ["punkt"; "wordnet"]%string.
Proof. reflexivity. Qed.

(** * More properties of the code *)

(** ** The order of the keys *)

Lemma filter_twice {A : Type} (f g : A -> bool) (l : list A) :
  List.filter f (List.filter g l) = List.filter (fun y => g y && f y) l.
Proof.
  induction l as [|x l IH]; simpl; [done|].
  destruct (g x); simpl; [|done]. destruct (f x); by rewrite IH.
Qed.

Lemma keys_setitem {V : Type} (d : PyDict.t V) (k : string) (v : V) :
  PyDict.keys (PyDict.setitem d k v)
  = if bool_decide (k ∈ PyDict.keys d) then PyDict.keys d
    else PyDict.keys d ++ [k].
Proof.
  destruct (PyDict.get d k) as [v'|] eqn:Hget.
  - rewrite keys_setitem_present by congruence.
    rewrite bool_decide_eq_true_2; [done|].
    destruct (decide (k ∈ PyDict.keys d)) as [|Hn]; [done|].
    apply get_None in Hn. congruence.
  - rewrite setitem_fresh by done. apply get_None in Hget.
    rewrite bool_decide_eq_false_2 by done.
    unfold PyDict.keys. by rewrite map_app.
Qed.

(** A loop that stores under one key per turn lists its keys in order of
    first occurrence, after those already there. *)
Lemma keys_of_stores {V : Type} (step : PyDict.t V -> string -> PyDict.t V)
    (ks : list string) (d : PyDict.t V) :
  (forall d k, exists v, step d k = PyDict.setitem d k v) ->
  PyDict.keys (fold_left step ks d)
  = PyDict.keys d
    ++ List.filter (fun y => bool_decide (y ∉ PyDict.keys d)) (distinct ks).
Proof.
  intros Hstep. revert d. induction ks as [|w l IH]; intros d; simpl.
  - by rewrite app_nil_r.
  - rewrite IH. destruct (Hstep d w) as [v ->]. rewrite keys_setitem.
    destruct (decide (w ∈ PyDict.keys d)) as [Hin|Hnin].
    + rewrite bool_decide_eq_true_2 by done.
      rewrite (bool_decide_eq_false_2 (w ∉ PyDict.keys d)) by tauto.
      f_equal. rewrite filter_twice. apply filter_ext. intros y.
      destruct (String.eqb_spec y w) as [->|Hne]; simpl; [|done].
      apply bool_decide_eq_false_2. tauto.
    + rewrite bool_decide_eq_false_2 by done.
      rewrite (bool_decide_eq_true_2 (w ∉ PyDict.keys d)) by done.
      rewrite <- app_assoc. simpl. do 2 f_equal.
      rewrite filter_twice. apply filter_ext. intros y.
      destruct (String.eqb_spec y w) as [->|Hne]; simpl.
      * apply bool_decide_eq_false_2. intros Hn. apply Hn.
        apply elem_of_app. right. apply list_elem_of_here.
      * apply bool_decide_ext. rewrite elem_of_app, list_elem_of_singleton.
        tauto.
Qed.

Lemma distinct_all (l : list string) :
  List.filter (fun y => bool_decide (y ∉ @nil string)) (distinct l) = distinct l.
Proof.
  rewrite (filter_ext _ (fun _ => true)).
  - induction (distinct l) as [|x xs IH]; simpl; [done | by rewrite IH].
  - intros y. apply bool_decide_eq_true_2, not_elem_of_nil.
Qed.

Lemma tally_keys (al : list string) : PyDict.keys (tally al) = distinct al.
Proof.
  unfold tally. rewrite keys_of_stores.
  - apply distinct_all.
  - intros d k. by eexists.
Qed.

Lemma matched_map_as_stores (lex : gmap string (list string))
    (tokens : list string) (d : PyDict.t (list string)) :
  fold_left (fun d w => match lex !! w with
                        | Some emotions => PyDict.setitem d w emotions
                        | None => d
                        end) tokens d
  = fold_left (fun d w => PyDict.setitem d w (default [] (lex !! w)))
              (List.filter (lexicon_contains lex) tokens) d.
Proof.
  revert d. induction tokens as [|w ws IH]; intros d; simpl; [done|].
  destruct (lex !! w) as [emotions|] eqn:Hw.
  - rewrite (lexicon_contains_Some _ _ _ Hw). simpl. by rewrite Hw, IH.
  - rewrite (lexicon_contains_None _ _ Hw). apply IH.
Qed.

Lemma matched_map_keys (lex : gmap string (list string)) (tokens : list string) :
  PyDict.keys (matched_map lex tokens)
  = distinct (List.filter (lexicon_contains lex) tokens).
Proof.
  unfold matched_map. rewrite matched_map_as_stores, keys_of_stores.
  - apply distinct_all.
  - intros d k. by eexists.
Qed.

(** X1. After a load, the raw counts and the frequencies list the same
    labels in the same order: the distinct labels of the matched-emotion
    list, each at the place of its first occurrence. *)
Theorem scores_keep_first_occurrence_order (st : state) (token_list : list string) :
  let o := self (snd (load_token_list token_list st)) in
  PyDict.keys (raw_emotion_scores o) = distinct (affect_list o) /\
  PyDict.keys (affect_frequencies o) = distinct (affect_list o) /\
  NoDup (distinct (affect_list o)) /\
  forall e, e ∈ distinct (affect_list o) <-> e ∈ affect_list o.
Proof.
  intros o. unfold o. rewrite load_token_list_run. simpl.
  set (al := matched_emotions _ _).
  rewrite frequencies_keys, tally_keys. split; [done|]. split; [done|].
  split; [rewrite <- tally_keys; apply tally_NoDup|].
  intros e. rewrite <- tally_keys. split.
  - intros Hin. destruct (PyDict.get (tally al) e) as [n|] eqn:Hget.
    + apply tally_get in Hget as [-> Hpos]. unfold occurrences in Hpos.
      apply list_elem_of_In, (count_occ_In string_dec). lia.
    + by apply get_None in Hget.
  - intros Hin. apply list_elem_of_In, (count_occ_In string_dec) in Hin.
    destruct (PyDict.get (tally al) e) as [n|] eqn:Hget.
    + destruct (decide (e ∈ PyDict.keys (tally al))) as [|Hn]; [done|].
      apply get_None in Hn. congruence.
    + pose proof (tally_getitem al e) as Hg. unfold Counter.getitem in Hg.
      rewrite Hget in Hg. unfold occurrences in Hg. lia.
Qed.

(** X2. After a load, the keys of the matched map are the distinct tokens
    that are keys of the lexicon, in order of first occurrence, and each
    is mapped to its emotion list in the lexicon. *)
Theorem matched_map_keeps_token_order (st : state) (token_list : list string) :
  let lex := lexicon (self st) in
  let o := self (snd (load_token_list token_list st)) in
  PyDict.keys (affect_dict o)
  = distinct (List.filter (lexicon_contains lex) token_list) /\
  NoDup (PyDict.keys (affect_dict o)) /\
  forall w emotions, (w, emotions) ∈ affect_dict o ->
    w ∈ token_list /\ lex !! w = Some emotions.
Proof.
  intros lex o. unfold o. rewrite load_token_list_run. simpl. fold lex.
  split; [apply matched_map_keys|].
  assert (NoDup (PyDict.keys (matched_map lex token_list))) as Hnd.
  { unfold matched_map. generalize (NoDup_nil_2 (A:=string)).
    change (@nil string) with (PyDict.keys (@nil (string * list string))).
    generalize (@nil (string * list string)).
    induction token_list as [|w ws IH]; intros d Hd; simpl; [done|].
    apply IH. destruct (lex !! w); [by apply keys_setitem_NoDup | done]. }
  split; [done|].
  intros w emotions Hin. apply (elem_of_get _ _ _ Hnd) in Hin.
  rewrite matched_map_get in Hin.
  by destruct (decide (w ∈ token_list)).
Qed.

Lemma matched_map_keeps_token_order_witness :
  ("sad"%string, ["sadness"; "negative"]%string)
    ∈ affect_dict (self (snd (load_token_list demo_tokens demo_state))) /\
  "sad"%string ∈ demo_tokens /\
  lexicon (self demo_state) !! "sad"%string = Some ["sadness"; "negative"]%string.
Proof.
  assert (("sad"%string, ["sadness"; "negative"]%string)
            ∈ affect_dict (self (snd (load_token_list demo_tokens demo_state))))
    as Hin.
  { change (("sad"%string, ["sadness"; "negative"]%string)
              ∈ [("happy", ["joy"; "positive"]);
                 ("sad", ["sadness"; "negative"])]%string).
    apply list_elem_of_further, list_elem_of_here. }
  split; [exact Hin|].
  destruct (matched_map_keeps_token_order demo_state demo_tokens)
    as (_ & _ & Hentries).
  exact (Hentries _ _ Hin).
Defined.

(** ** Counts and frequencies *)

Lemma occurrences_app (e : string) (l1 l2 : list string) :
  occurrences e (l1 ++ l2) = occurrences e l1 + occurrences e l2.
Proof. unfold occurrences. rewrite count_occ_app. lia. Qed.

Lemma occurrences_bounds (e : string) (l : list string) :
  0 <= occurrences e l <= Z.of_nat (length l).
Proof.
  unfold occurrences. pose proof (count_occ_bound string_dec e l). lia.
Qed.

Lemma matched_emotions_app (lex : gmap string (list string))
    (A B : list string) :
  matched_emotions lex (A ++ B)
  = matched_emotions lex A ++ matched_emotions lex B.
Proof. unfold matched_emotions. by rewrite omap_app, concat_app. Qed.

Lemma occurrences_matched (lex : gmap string (list string)) (e : string)
    (tokens : list string) :
  occurrences e (matched_emotions lex tokens)
  = fold_right Z.add 0 (map (contribution lex e) tokens).
Proof.
  unfold matched_emotions, contribution, occurrences.
  induction tokens as [|w ws IH]; simpl; [done|].
  destruct (lex !! w); simpl.
  - rewrite count_occ_app, Nat2Z.inj_add. f_equal. exact IH.
  - rewrite Z.add_0_l. exact IH.
Qed.

Lemma tally_get_eq (al : list string) (e : string) :
  PyDict.get (tally al) e
  = if decide (0 < occurrences e al) then Some (occurrences e al) else None.
Proof.
  destruct (PyDict.get (tally al) e) as [n|] eqn:Hget.
  - apply tally_get in Hget as [-> Hpos]. by rewrite decide_True.
  - destruct (decide (0 < occurrences e al)) as [Hpos|]; [|done].
    assert (PyDict.get (tally al) e = Some (occurrences e al)) as Hs
      by by apply tally_get.
    congruence.
Qed.

Lemma inject_Z_pos (t : Z) : 0 < t -> (0 < inject_Z t)%Q.
Proof. intros Ht. unfold Qlt. simpl. lia. Qed.

Lemma frequency_le (c c' t : Z) :
  0 < t ->
  (Qred (inject_Z c / inject_Z t) <= Qred (inject_Z c' / inject_Z t))%Q
  <-> c <= c'.
Proof.
  intros Ht. rewrite Qred_le. unfold Qdiv.
  rewrite Qmult_le_r; [by rewrite <- Zle_Qle|].
  by apply Qinv_lt_0_compat, inject_Z_pos.
Qed.

(** X3. After a load, the raw count of a label is the sum, over the tokens
    in order, of the number of times the label stands in the token's
    emotion list (a token that is not a key brings nothing, a label
    repeated in one list counts each time); a label whose sum is zero is
    not a key of the raw counts. *)
Theorem raw_counts_add_up (st : state) (token_list : list string) (e : string) :
  let lex := lexicon (self st) in
  let o := self (snd (load_token_list token_list st)) in
  let n := fold_right Z.add 0 (map (contribution lex e) token_list) in
  PyDict.get (raw_emotion_scores o) e = (if decide (0 < n) then Some n else None).
Proof.
  intros lex o n. unfold o, n. rewrite load_token_list_run. simpl.
  by rewrite tally_get_eq, occurrences_matched.
Qed.

(** X4. After a load, every raw count is between 1 and the total of the
    raw counts, and every frequency is above 0 and at most 1. *)
Theorem counts_and_frequencies_are_bounded (st : state)
    (token_list : list string) (e : string) :
  let o := self (snd (load_token_list token_list st)) in
  let total := Py.sum (PyDict.values (raw_emotion_scores o)) in
  (forall c, PyDict.get (raw_emotion_scores o) e = Some c -> 1 <= c <= total) /\
  (forall f, PyDict.get (affect_frequencies o) e = Some f -> (0 < f /\ f <= 1)%Q).
Proof.
  intros o total. unfold total, o. rewrite load_token_list_run. simpl.
  set (al := matched_emotions _ _). rewrite tally_sum.
  assert (forall c, PyDict.get (tally al) e = Some c ->
                    1 <= c <= Z.of_nat (length al)) as Hc.
  { intros c [-> Hpos]%tally_get. pose proof (occurrences_bounds e al). lia. }
  split; [done|].
  intros f. rewrite frequencies_get, tally_sum.
  destruct (PyDict.get (tally al) e) as [c|]; [|done].
  intros [= <-]. destruct (Hc c eq_refl) as [Hlo Hhi].
  assert (0 < inject_Z (Z.of_nat (length al)))%Q as Ht
    by (apply inject_Z_pos; lia).
  rewrite Qred_correct. split.
  - apply Qlt_shift_div_l; [done|]. rewrite Qmult_0_l.
    apply inject_Z_pos. lia.
  - apply Qle_shift_div_r; [done|]. rewrite Qmult_1_l. by rewrite <- Zle_Qle.
Qed.

Lemma counts_and_frequencies_are_bounded_witness :
  PyDict.get (raw_emotion_scores
                (self (snd (load_token_list demo_tokens demo_state))))
             "sadness"%string = Some 1 /\
  1 <= 1 <= Py.sum (PyDict.values
                      (raw_emotion_scores
                         (self (snd (load_token_list demo_tokens demo_state))))) /\
  (0 < 1 # 6 /\ 1 # 6 <= 1)%Q.
Proof.
  destruct (counts_and_frequencies_are_bounded demo_state demo_tokens
              "sadness"%string) as [Hcount Hfreq].
  split; [reflexivity|]. split.
  - apply Hcount. reflexivity.
  - apply Hfreq. reflexivity.
Defined.

(** X5. Loading the concatenation of two token sequences gives the
    matched-emotion list of the first followed by that of the second, and
    for every label a raw count that is the sum of the two raw counts (a
    label that is not a key counting zero). *)
Theorem load_of_concatenation (st : state) (A B : list string) (e : string) :
  let after (tokens : list string) := self (snd (load_token_list tokens st)) in
  affect_list (after (A ++ B)) = affect_list (after A) ++ affect_list (after B) /\
  Counter.getitem (raw_emotion_scores (after (A ++ B))) e
  = Counter.getitem (raw_emotion_scores (after A)) e
    + Counter.getitem (raw_emotion_scores (after B)) e.
Proof.
  intros after. unfold after. rewrite !load_token_list_run. simpl.
  rewrite matched_emotions_app. split; [done|].
  by rewrite !tally_getitem, occurrences_app.
Qed.

(** ** Order and repetition of the tokens *)

Lemma concat_Permutation {A : Type} (ls ls' : list (list A)) :
  ls ≡ₚ ls' -> concat ls ≡ₚ concat ls'.
Proof.
  induction 1 as [|l ls ls' _ IH|l l' ls|ls1 ls2 ls3 _ IH1 _ IH2]; simpl.
  - done.
  - by apply Permutation_app_head.
  - rewrite !app_assoc. apply Permutation_app_tail, Permutation_app_comm.
  - by etrans.
Qed.

Lemma matched_emotions_Permutation (lex : gmap string (list string))
    (A B : list string) :
  A ≡ₚ B -> matched_emotions lex A ≡ₚ matched_emotions lex B.
Proof.
  intros HAB. unfold matched_emotions. apply concat_Permutation.
  by apply omap_Permutation.
Qed.

Lemma dict_ext {V : Type} (d1 d2 : PyDict.t V) :
  NoDup (PyDict.keys d1) ->
  PyDict.keys d1 = PyDict.keys d2 ->
  (forall k, PyDict.get d1 k = PyDict.get d2 k) ->
  d1 = d2.
Proof.
  revert d2. induction d1 as [|[k v] d1 IH]; intros [|[k' v'] d2]; simpl;
    try done.
  intros [Hk Hnd]%NoDup_cons [= <- Hkeys] Hget.
  pose proof (Hget k) as Hhead. rewrite String.eqb_refl in Hhead.
  injection Hhead as <-. f_equal. apply IH; [done|done|].
  intros x. specialize (Hget x).
  destruct (String.eqb_spec x k) as [Heq|Hne]; [|done].
  rewrite Heq.
  assert (PyDict.get d1 k = None) as -> by by apply get_None.
  symmetry. apply get_None. by rewrite <- Hkeys.
Qed.

(** What [top_emotions] answers after a load. *)
Lemma top_emotions_after_load (st : state) (token_list : list string) :
  let st' := snd (load_token_list token_list st) in
  let freqs := affect_frequencies (self st') in
  (affect_list (self st') = [] /\ freqs = [] /\
   top_emotions st' = (Raise ValueError, st'))
  \/ (affect_list (self st') <> [] /\
      exists top,
        top_emotions st' = (Ok top, st') /\
        forall k v, (k, v) ∈ top <->
          PyDict.get freqs k = Some v /\
          forall k' v', PyDict.get freqs k' = Some v' -> (v' <= v)%Q).
Proof.
  intros st' freqs.
  assert (freqs = frequencies (tally (affect_list (self st')))) as Hf
    by (unfold freqs, st'; by rewrite load_token_list_run).
  destruct (affect_list (self st')) as [|x al] eqn:Hal.
  - left. split; [done|]. split; [by rewrite Hf|].
    apply top_emotions_empty. fold freqs. by rewrite Hf.
  - right. split; [done|].
    destruct (top_emotions_spec st') as (top & Hrun & _ & Htop).
    + fold freqs. rewrite Hf. intros Hnil.
      apply (f_equal PyDict.keys) in Hnil. rewrite frequencies_keys in Hnil.
      apply (f_equal (@length string)) in Hnil. unfold PyDict.keys in Hnil.
      rewrite length_map in Hnil.
      assert (tally (x :: al) = []) as Ht by by destruct (tally (x :: al)).
      by apply tally_nil_iff in Ht.
    + fold freqs. rewrite Hf, frequencies_keys. apply tally_NoDup.
    + fold freqs. rewrite Hf. apply frequencies_canonical.
    + exists top. by split.
Qed.

(** X6. The order of the tokens does not matter for the scores: if one
    token sequence is a permutation of another, the two loads give every
    label the same raw count and the same frequency, give every word the
    same entry of the matched map, and [top_emotions] returns the same
    pairs (possibly in another order), or raises in both. *)
Theorem token_order_is_irrelevant (st : state) (A B : list string) :
  A ≡ₚ B ->
  let sA := snd (load_token_list A st) in
  let sB := snd (load_token_list B st) in
  (forall e, PyDict.get (raw_emotion_scores (self sA)) e
             = PyDict.get (raw_emotion_scores (self sB)) e) /\
  (forall e, PyDict.get (affect_frequencies (self sA)) e
             = PyDict.get (affect_frequencies (self sB)) e) /\
  (forall w, PyDict.get (affect_dict (self sA)) w
             = PyDict.get (affect_dict (self sB)) w) /\
  match fst (top_emotions sA), fst (top_emotions sB) with
  | Ok topA, Ok topB => forall kv, kv ∈ topA <-> kv ∈ topB
  | Raise a, Raise b => a = b
  | _, _ => False
  end.
Proof.
  intros HAB sA sB.
  pose proof (matched_emotions_Permutation (lexicon (self st)) A B HAB) as Hal.
  assert (forall e, PyDict.get (raw_emotion_scores (self sA)) e
                    = PyDict.get (raw_emotion_scores (self sB)) e) as Hraw.
  { intros e. unfold sA, sB. rewrite !load_token_list_run. simpl.
    rewrite !tally_get_eq. unfold occurrences.
    by rewrite (proj1 (Permutation_count_occ string_dec _ _) Hal e). }
  assert (forall e, PyDict.get (affect_frequencies (self sA)) e
                    = PyDict.get (affect_frequencies (self sB)) e) as Hfreq.
  { intros e. specialize (Hraw e). revert Hraw. unfold sA, sB.
    rewrite !load_token_list_run. simpl. rewrite !frequencies_get, !tally_sum.
    intros ->. by rewrite (Permutation_length Hal). }
  split; [done|]. split; [done|]. split.
  - intros w. unfold sA, sB. rewrite !load_token_list_run. simpl.
    rewrite !matched_map_get.
    destruct (decide (w ∈ A)) as [HA|HA], (decide (w ∈ B)) as [HB|HB];
      try done; exfalso; [apply HB; by rewrite <- HAB | apply HA; by rewrite HAB].
  - destruct (top_emotions_after_load st A) as [(HnA & _ & HtA)|(HnA & tA & HtA & HsA)],
             (top_emotions_after_load st B) as [(HnB & _ & HtB)|(HnB & tB & HtB & HsB)];
      fold sA in HnA, HtA; fold sB in HnB, HtB.
    + by rewrite HtA, HtB.
    + exfalso. apply HnB. revert HnA. unfold sA, sB.
      rewrite !load_token_list_run. simpl. intros HnA. rewrite HnA in Hal.
      by apply Permutation_nil_l in Hal.
    + exfalso. apply HnA. revert HnB. unfold sA, sB.
      rewrite !load_token_list_run. simpl. intros HnB. rewrite HnB in Hal.
      by apply Permutation_nil_r in Hal.
    + rewrite HtA, HtB. simpl. intros [k v]. fold sA in HsA. fold sB in HsB.
      rewrite HsA, HsB. rewrite Hfreq. split; intros [Hget Hmax]; split;
        try done; intros k' v' Hk'; apply (Hmax k').
      * by rewrite Hfreq.
      * by rewrite <- Hfreq.
Qed.

Lemma token_order_is_irrelevant_witness :
  ["happy"; "sad"]%string ≡ₚ ["sad"; "happy"]%string /\
  forall e,
    PyDict.get (affect_frequencies
                  (self (snd (load_token_list ["happy"; "sad"]%string demo_state)))) e
    = PyDict.get (affect_frequencies
                    (self (snd (load_token_list ["sad"; "happy"]%string demo_state)))) e.
Proof.
  assert (["happy"; "sad"]%string ≡ₚ ["sad"; "happy"]%string) as Hperm
    by apply perm_swap.
  split; [exact Hperm|].
  apply (token_order_is_irrelevant demo_state _ _ Hperm).
Defined.

Lemma filter_none {A : Type} (f : A -> bool) (l : list A) :
  (forall y, y ∈ l -> f y = false) -> List.filter f l = [].
Proof.
  induction l as [|x l IH]; intros Hf; simpl; [done|].
  rewrite (Hf x) by apply list_elem_of_here.
  apply IH. intros y Hy. by apply Hf, list_elem_of_further.
Qed.

Lemma tally_keys_twice (al : list string) :
  PyDict.keys (tally (al ++ al)) = PyDict.keys (tally al).
Proof.
  unfold tally at 1. rewrite fold_left_app. fold (tally al).
  rewrite keys_of_stores by (intros d k; by eexists).
  rewrite filter_none; [by rewrite app_nil_r|].
  intros y Hy. apply bool_decide_eq_false_2.
  rewrite tally_keys. tauto.
Qed.

Lemma double_ratio (c t : Z) :
  0 < t ->
  Qred (inject_Z (c + c) / inject_Z (t + t)) = Qred (inject_Z c / inject_Z t).
Proof.
  intros Ht. apply Qred_complete. rewrite !inject_Z_plus.
  pose proof (inject_Z_pos t Ht) as Hpos.
  assert (~ (inject_Z t == 0)%Q) as Hne.
  { intros Heq. rewrite Heq in Hpos. by apply Qlt_irrefl in Hpos. }
  field. split; [done|].
  intros Heq. rewrite <- inject_Z_plus in Heq.
  assert (0 < inject_Z (t + t))%Q as Hpos2 by (apply inject_Z_pos; lia).
  rewrite Heq in Hpos2. by apply Qlt_irrefl in Hpos2.
Qed.

Lemma top_emotions_reads_frequencies (s1 s2 : state) :
  affect_frequencies (self s1) = affect_frequencies (self s2) ->
  fst (top_emotions s1) = fst (top_emotions s2).
Proof.
  intros Heq. unfold top_emotions, mbind, method_bind, getattr, local.
  rewrite Heq. destruct (Py.max _); [|done]. by destruct (for_each _ _ _).
Qed.

(** X7. Repeating the token sequence changes no frequency: loading a
    sequence followed by itself doubles every raw count and leaves the
    frequency map, with its order, and the answer of [top_emotions]
    exactly as after loading the sequence once. *)
Theorem repetition_keeps_frequencies (st : state) (A : list string) :
  let once := snd (load_token_list A st) in
  let twice := snd (load_token_list (A ++ A) st) in
  (forall e, Counter.getitem (raw_emotion_scores (self twice)) e
             = 2 * Counter.getitem (raw_emotion_scores (self once)) e) /\
  affect_frequencies (self twice) = affect_frequencies (self once) /\
  fst (top_emotions twice) = fst (top_emotions once).
Proof.
  intros once twice.
  assert (affect_frequencies (self twice) = affect_frequencies (self once))
    as Hfreq.
  { unfold once, twice. rewrite !load_token_list_run. simpl.
    rewrite matched_emotions_app.
    set (al := matched_emotions _ _).
    apply dict_ext.
    - rewrite frequencies_keys. apply tally_NoDup.
    - by rewrite !frequencies_keys, tally_keys_twice.
    - intros e. rewrite !frequencies_get, !tally_get_eq, !tally_sum.
      rewrite occurrences_app, length_app, Nat2Z.inj_add.
      pose proof (occurrences_bounds e al) as Hb.
      destruct (decide (0 < occurrences e al)) as [Hpos|Hzero].
      + rewrite decide_True by lia. simpl. f_equal.
        apply double_ratio. lia.
      + by rewrite decide_False by lia. }
  split; [|split; [done | by apply top_emotions_reads_frequencies]].
  intros e. unfold once, twice. rewrite !load_token_list_run. simpl.
  rewrite matched_emotions_app, !tally_getitem, occurrences_app. lia.
Qed.

(** ** The most common emotions *)

(** X8. After a load with a non-empty matched-emotion list, [top_emotions]
    returns exactly the labels whose raw count is the largest raw count,
    each paired with that count over the total (division being exact). *)
Theorem top_emotions_have_the_largest_count (st : state)
    (token_list : list string) :
  let st' := snd (load_token_list token_list st) in
  let counts := raw_emotion_scores (self st') in
  let total := Py.sum (PyDict.values counts) in
  affect_list (self st') <> [] ->
  exists top,
    top_emotions st' = (Ok top, st') /\
    forall k v, (k, v) ∈ top <->
      exists c, PyDict.get counts k = Some c /\
                v = Qred (inject_Z c / inject_Z total) /\
                forall k' c', PyDict.get counts k' = Some c' -> c' <= c.
Proof.
  intros st' counts total Hne.
  destruct (top_emotions_after_load st token_list)
    as [[Hnil _]|(_ & top & Hrun & Htop)]; [done|].
  fold st' in Hrun, Htop. exists top. split; [done|].
  assert (affect_frequencies (self st') = frequencies counts) as Hf
    by (unfold counts, st'; by rewrite load_token_list_run).
  assert (0 < total) as Hpos.
  { revert Hne. unfold total, counts, st'. rewrite load_token_list_run. simpl.
    rewrite tally_sum. destruct (matched_emotions _ _); [done | simpl; lia]. }
  intros k v. rewrite Htop, Hf. fold total. split.
  - intros [Hget Hmax]. rewrite frequencies_get in Hget. fold total in Hget.
    destruct (PyDict.get counts k) as [c|]; [|done].
    injection Hget as <-. exists c. split; [done|]. split; [done|].
    intros k' c' Hc'. apply (frequency_le c' c total Hpos).
    apply (Hmax k'). rewrite frequencies_get. fold total. by rewrite Hc'.
  - intros (c & Hc & -> & Hmax). split.
    + rewrite frequencies_get. fold total. by rewrite Hc.
    + intros k' v'. rewrite frequencies_get. fold total.
      destruct (PyDict.get counts k') as [c'|] eqn:Hc'; [|done].
      intros [= <-]. apply frequency_le; [done|]. by apply (Hmax k').
Qed.

Lemma top_emotions_have_the_largest_count_witness :
  affect_list (self (snd (load_token_list demo_tokens demo_state))) <> [] /\
  exists top,
    top_emotions (snd (load_token_list demo_tokens demo_state))
    = (Ok top, snd (load_token_list demo_tokens demo_state)) /\
    ("joy"%string, 1 # 3)%Q ∈ top.
Proof.
  assert (affect_list (self (snd (load_token_list demo_tokens demo_state))) <> [])
    as Hne by (vm_compute; discriminate).
  split; [exact Hne|].
  destruct (top_emotions_have_the_largest_count demo_state demo_tokens Hne)
    as (top & Hrun & Htop).
  exists top. split; [exact Hrun|].
  apply Htop. exists 2. split; [reflexivity|]. split; [reflexivity|].
  intros k' c' Hget.
  change (PyDict.get [("joy", 2); ("positive", 2); ("sadness", 1);
                      ("negative", 1)]%string k' = Some c') in Hget.
  apply get_Some_elem_of in Hget.
  repeat (apply elem_of_cons in Hget as [[= -> ->]|Hget]; [lia|]).
  by apply elem_of_nil in Hget.
Defined.

Lemma filter_sublist {A : Type} (f : A -> bool) (l : list A) :
  sublist (List.filter f l) l.
Proof.
  induction l as [|x l IH]; simpl; [constructor|].
  destruct (f x); by constructor.
Qed.

(** X9. When the frequency map left by a load is not empty,
    [top_emotions] returns a non-empty list whose pairs all carry the same
    frequency, [max_value], which is a frequency of the map that no
    frequency of the map exceeds, and stand in the order they have in the
    frequency map: the list is the frequency map with the entries below
    the maximum left out. *)
Theorem top_emotions_keep_map_order (st : state) (token_list : list string) :
  let st' := snd (load_token_list token_list st) in
  let freqs := affect_frequencies (self st') in
  freqs <> [] ->
  exists top max_value,
    top_emotions st' = (Ok top, st') /\
    max_value ∈ PyDict.values freqs /\
    (forall v, v ∈ PyDict.values freqs -> (v <= max_value)%Q) /\
    top <> [] /\
    top = List.filter (fun kv => Py.eq (snd kv) max_value) freqs /\
    (forall kv, kv ∈ top -> snd kv = max_value) /\
    sublist top freqs.
Proof.
  intros st' freqs Hne.
  assert (NoDup (PyDict.keys freqs) /\ canonical freqs) as [Hnd Hcan].
  { unfold freqs, st'. rewrite load_token_list_run. simpl.
    rewrite frequencies_keys. split; [apply tally_NoDup|].
    apply frequencies_canonical. }
  destruct (top_emotions_run st' Hne Hnd) as (m & _ & Hin & Hle & Hrun).
  fold freqs in Hin, Hle, Hrun.
  unfold canonical in Hcan. rewrite Forall_forall in Hcan.
  assert (map (fun kv : string * Py.float => (fst kv, m))
              (List.filter (fun kv => Py.eq (snd kv) m) freqs)
          = List.filter (fun kv => Py.eq (snd kv) m) freqs) as Hsame.
  { rewrite <- (map_id (List.filter _ freqs)) at 2.
    apply map_ext_in. intros [k v] [Hkv Heq]%filter_In. simpl in *. f_equal.
    symmetry. apply canonical_eq.
    - apply Hcan. unfold PyDict.values. apply list_elem_of_fmap.
      exists (k, v). split; [done | by apply list_elem_of_In].
    - by apply Hcan.
    - by apply Qeq_bool_eq. }
  rewrite Hsame in Hrun. eexists _, m. split; [exact Hrun|].
  split; [exact Hin|]. split; [exact Hle|].
  split; [|split; [done|split]].
  - apply list_elem_of_fmap in Hin as [[k v] [-> Hkv]]. simpl.
    intros Hnil. assert (In (k, v) (List.filter (fun kv => Py.eq kv.2 v) freqs)) as Hf.
    { apply filter_In. split; [by apply list_elem_of_In|].
      simpl. apply Qeq_bool_iff, Qeq_refl. }
    by rewrite Hnil in Hf.
  - intros kv Hkv. rewrite <- Hsame in Hkv.
    by apply list_elem_of_fmap in Hkv as [kv' [-> _]].
  - apply filter_sublist.
Qed.

Lemma top_emotions_keep_map_order_witness :
  affect_frequencies (self (snd (load_token_list demo_tokens demo_state))) <> [] /\
  exists top max_value,
    top_emotions (snd (load_token_list demo_tokens demo_state))
    = (Ok top, snd (load_token_list demo_tokens demo_state)) /\
    (forall v,
       v ∈ PyDict.values
             (affect_frequencies
                (self (snd (load_token_list demo_tokens demo_state)))) ->
       (v <= max_value)%Q) /\
    top <> [] /\
    forall kv, kv ∈ top -> snd kv = max_value.
Proof.
  assert (affect_frequencies
            (self (snd (load_token_list demo_tokens demo_state))) <> [])
    as Hne by (vm_compute; discriminate).
  split; [exact Hne|].
  destruct (top_emotions_keep_map_order demo_state demo_tokens Hne)
    as (top & m & Hrun & _ & Hmax & Hnil & _ & Hval & _).
  exists top, m. split; [exact Hrun|]. split; [exact Hmax|].
  split; [exact Hnil | exact Hval].
Defined.

(** ** Replacing the lexicon, loading text *)

(** X10. [load_lexicon] records the file it opens and touches nothing but
    the lexicon: the token sequence, the matched-emotion list, the matched
    map, the raw counts, the frequencies and the answer of [top_emotions]
    stay those computed with the previous lexicon, also when the new one
    is installed; when opening or parsing fails the error is raised and
    the whole object is as before. *)
Theorem load_lexicon_recomputes_nothing
    (open_file : Path -> result string)
    (json_load : string -> result (gmap string (list string)))
    (path : Path) (st : state) :
  let out := load_lexicon open_file json_load path st in
  opened (snd out) = opened st ++ [path] /\
  words (self (snd out)) = words (self st) /\
  affect_list (self (snd out)) = affect_list (self st) /\
  affect_dict (self (snd out)) = affect_dict (self st) /\
  raw_emotion_scores (self (snd out)) = raw_emotion_scores (self st) /\
  affect_frequencies (self (snd out)) = affect_frequencies (self st) /\
  fst (top_emotions (snd out)) = fst (top_emotions st) /\
  (forall e, fst out = Raise e ->
     self (snd out) = self st /\ open_file path ≫= json_load = Raise e).
Proof.
  intros out. unfold out. rewrite load_lexicon_run.
  destruct (open_file path ≫= json_load) as [lex|e]; simpl.
  - repeat split; try done. by apply top_emotions_reads_frequencies.
  - repeat split; try done.
    + by apply top_emotions_reads_frequencies.
    + by injection H as ->.
Qed.

Lemma load_lexicon_recomputes_nothing_witness :
  fst (load_lexicon demo_open_file demo_json_load "missing.json"%string
         (snd (load_token_list demo_tokens demo_state)))
  = Raise OSError /\
  self (snd (load_lexicon demo_open_file demo_json_load "missing.json"%string
               (snd (load_token_list demo_tokens demo_state))))
  = self (snd (load_token_list demo_tokens demo_state)).
Proof.
  assert (fst (load_lexicon demo_open_file demo_json_load "missing.json"%string
                 (snd (load_token_list demo_tokens demo_state)))
          = Raise OSError) as Hfail by reflexivity.
  split; [exact Hfail|].
  destruct (load_lexicon_recomputes_nothing demo_open_file demo_json_load
              "missing.json"%string
              (snd (load_token_list demo_tokens demo_state)))
    as (_ & _ & _ & _ & _ & _ & _ & Hraise).
  exact (proj1 (Hraise OSError Hfail)).
Defined.

Lemma matched_emotions_map (lex : gmap string (list string))
    (f : string -> string) (ws : list string) :
  matched_emotions lex (map f ws) = concat (omap (fun w => lex !! f w) ws).
Proof.
  unfold matched_emotions. f_equal.
  induction ws as [|w ws IH]; simpl; [done|].
  destruct (lex !! f w); simpl; [f_equal|]; exact IH.
Qed.

(** X12. [load_raw_text] never raises; it stores the lemmas of the words
    of the text as token sequence and matches the lemmas, not the words
    as written: the matched-emotion list is the concatenation, in the
    order of the text, of the emotion lists of the lemmas that are keys of
    the lexicon. *)
Theorem load_raw_text_matches_lemmas
    (blob_words : string -> list string) (lemma : string -> string)
    (text : string) (st : state) :
  let lex := lexicon (self st) in
  let out := load_raw_text blob_words lemma text st in
  fst out = Ok tt /\
  words (self (snd out)) = map lemma (blob_words text) /\
  affect_list (self (snd out))
  = concat (omap (fun w => lex !! lemma w) (blob_words text)) /\
  snd out = snd (load_token_list (map lemma (blob_words text)) st).
Proof.
  intros lex out. unfold out, load_raw_text. rewrite load_token_list_run.
  simpl. by rewrite matched_emotions_map.
Qed.

Lemma matched_ignores_unknown (lex : gmap string (list string))
    (tokens : list string) :
  matched_emotions lex (List.filter (lexicon_contains lex) tokens)
  = matched_emotions lex tokens /\
  matched_map lex (List.filter (lexicon_contains lex) tokens)
  = matched_map lex tokens.
Proof.
  unfold matched_emotions, matched_map.
  generalize (@nil (string * list string)).
  induction tokens as [|w ws IH]; intros d; simpl; [done|].
  destruct (lex !! w) as [emotions|] eqn:Hw.
  - rewrite (lexicon_contains_Some _ _ _ Hw). simpl. rewrite Hw.
    destruct (IH (PyDict.setitem d w emotions)) as [IH1 IH2].
    split; [|exact IH2]. exact (f_equal (app emotions) IH1).
  - rewrite (lexicon_contains_None _ _ Hw). apply IH.
Qed.

(** X13. Tokens that are not keys of the lexicon have no effect on the
    scores: loading a token sequence leaves the same matched-emotion list,
    matched map, raw counts, frequencies and answer of [top_emotions] as
    loading only its tokens that are keys of the lexicon. *)
Theorem unknown_tokens_are_ignored (st : state) (token_list : list string) :
  let known := List.filter (lexicon_contains (lexicon (self st))) token_list in
  let s1 := snd (load_token_list token_list st) in
  let s2 := snd (load_token_list known st) in
  affect_list (self s1) = affect_list (self s2) /\
  affect_dict (self s1) = affect_dict (self s2) /\
  raw_emotion_scores (self s1) = raw_emotion_scores (self s2) /\
  affect_frequencies (self s1) = affect_frequencies (self s2) /\
  fst (top_emotions s1) = fst (top_emotions s2).
Proof.
  intros known s1 s2.
  destruct (matched_ignores_unknown (lexicon (self st)) token_list) as [Hl Hm].
  assert (affect_frequencies (self s1) = affect_frequencies (self s2)) as Hf.
  { unfold s1, s2, known. rewrite !load_token_list_run. simpl. by rewrite Hl. }
  split; [|split; [|split; [|split; [done|by apply top_emotions_reads_frequencies]]]];
    unfold s1, s2, known; rewrite !load_token_list_run; simpl;
    by rewrite ?Hl, ?Hm.
Qed.

(** ** The start-up loop *)

Section bootstrap_facts.
Variable W : Type.
Variable find : W -> string -> bool.
Variable download : string -> W -> W.

Lemma bootstrap_all_found (libs : list string) (w : W) (log : list event) :
  (forall l, l ∈ libs -> find w l = true) ->
  fold_left (bootstrap_step W find download) libs (w, log) = (w, log).
Proof.
  induction libs as [|l libs IH]; intros Hfound; simpl; [done|].
  rewrite (Hfound l) by apply list_elem_of_here.
  apply IH. intros l' Hl'. by apply Hfound, list_elem_of_further.
Qed.

Lemma bootstrap_installs (libs : list string) (w : W) (log : list event) :
  (forall l w', find (download (resource_name l) w') l = true) ->
  (forall name l w', find w' l = true -> find (download name w') l = true) ->
  let w_end := fst (fold_left (bootstrap_step W find download) libs (w, log)) in
  (forall l, find w l = true -> find w_end l = true) /\
  (forall l, l ∈ libs -> find w_end l = true).
Proof.
  intros Hinstall Hmono. revert w log.
  induction libs as [|l libs IH]; intros w log; simpl.
  - split; [done|]. intros l' Hl'. by apply elem_of_nil in Hl'.
  - destruct (find w l) eqn:Hl.
    + destruct (IH w log) as [Hkeep Hall]. split; [done|].
      intros l' [->|Hl']%elem_of_cons; [by apply Hkeep | by apply Hall].
    + destruct (IH (download (resource_name l) w)
                   (log ++ [Print ("Could not find " +:+ l +:+ ", downloading");
                            Print "---"; Download (resource_name l)]))
        as [Hkeep Hall].
      split.
      * intros l' Hl'. by apply Hkeep, Hmono.
      * intros l' [->|Hl']%elem_of_cons; [by apply Hkeep, Hinstall | by apply Hall].
Qed.

End bootstrap_facts.

(** X14. When [nltk.data.find] finds every library, the start-up prints
    nothing, fetches nothing and leaves the data directory as it is. *)
Theorem bootstrap_is_silent_when_all_is_found (W : Type)
    (find : W -> string -> bool) (download : string -> W -> W)
    (libs : list string) (w : W) :
  (forall l, l ∈ libs -> find w l = true) ->
  bootstrap W find download libs w = (w, []).
Proof. intros Hfound. by apply bootstrap_all_found. Qed.

Lemma bootstrap_is_silent_when_all_is_found_witness :
  (forall l, l ∈ libraries ->
     (fun (w : list string) l => bool_decide (resource_name l ∈ w))
       ["punkt"; "wordnet"]%string l = true) /\
  bootstrap (list string)
            (fun w l => bool_decide (resource_name l ∈ w)) cons
            libraries ["punkt"; "wordnet"]%string
  = (["punkt"; "wordnet"]%string, []).
Proof.
  assert (forall l, l ∈ libraries ->
     (fun (w : list string) l => bool_decide (resource_name l ∈ w))
       ["punkt"; "wordnet"]%string l = true) as Hfound.
  { intros l Hl. unfold libraries in Hl.
    repeat (apply elem_of_cons in Hl as [->|Hl]; [reflexivity|]).
    by apply elem_of_nil in Hl. }
  split; [exact Hfound|].
  exact (bootstrap_is_silent_when_all_is_found (list string) _ cons libraries
           ["punkt"; "wordnet"]%string Hfound).
Defined.

(** X15. If a download makes the library it was asked for findable and
    never makes a found library unfindable, then after the start-up every
    library of the list is found, whatever was missing before, so that a
    second start-up prints and fetches nothing. *)
Theorem bootstrap_twice_fetches_once (W : Type)
    (find : W -> string -> bool) (download : string -> W -> W)
    (libs : list string) (w : W) :
  (forall l w', find (download (resource_name l) w') l = true) ->
  (forall name l w', find w' l = true -> find (download name w') l = true) ->
  let w1 := fst (bootstrap W find download libs w) in
  (forall l, l ∈ libs -> find w1 l = true) /\
  bootstrap W find download libs w1 = (w1, []).
Proof.
  intros Hinstall Hmono w1.
  destruct (bootstrap_installs W find download libs w [] Hinstall Hmono)
    as [_ Hall].
  split; [exact Hall|]. by apply bootstrap_all_found.
Qed.

Lemma bootstrap_twice_fetches_once_witness :
  bootstrap (list string) (fun w l => bool_decide (resource_name l ∈ w)) cons
            libraries []
  = (["wordnet"; "punkt"]%string,
     [Print "Could not find tokenizers/punkt, downloading"; Print "---";
      Download "punkt";
      Print "Could not find corpora/wordnet.zip, downloading"; Print "---";
      Download "wordnet"]) /\
  bootstrap (list string) (fun w l => bool_decide (resource_name l ∈ w)) cons
            libraries ["wordnet"; "punkt"]%string
  = (["wordnet"; "punkt"]%string, []).
Proof.
  split; [reflexivity|].
  refine (proj2 (bootstrap_twice_fetches_once (list string)
                   (fun w l => bool_decide (resource_name l ∈ w)) cons
                   libraries [] _ _)).
  - intros l w'. apply bool_decide_eq_true_2, list_elem_of_here.
  - intros name l w' Hl. apply bool_decide_eq_true in Hl.
    apply bool_decide_eq_true_2. by apply list_elem_of_further.
Defined.

(** * The analyzer on an unchecked lexicon *)

(** [build_word_affect] assigns its four fields after the whole analysis:
    when the analysis raises, nothing has been assigned. *)
Lemma untyped_build_word_affect_run (st : Untyped.state) :
  Untyped.build_word_affect st
  = match Untyped.analysis (Untyped.lexicon (Untyped.self st))
                           (Untyped.words (Untyped.self st)) with
    | Ok (al, ad, counts, freqs) =>
        (Ok tt,
         Untyped.mkState
           (Untyped.mkNRCLex (Untyped.lexicon (Untyped.self st))
                             (Untyped.words (Untyped.self st))
                             al ad counts freqs)
           (Untyped.opened st))
    | Raise e => (Raise e, st)
    end.
Proof.
  unfold Untyped.build_word_affect, mbind, Untyped.method_bind,
    Untyped.getattr, Untyped.local, Untyped.assign.
  destruct (Untyped.analysis _ _) as [[[[al ad] counts] freqs]|e]; done.
Qed.

Lemma untyped_load_token_list_run (token_list : list string)
    (st : Untyped.state) :
  Untyped.load_token_list token_list st
  = match Untyped.analysis (Untyped.lexicon (Untyped.self st)) token_list with
    | Ok (al, ad, counts, freqs) =>
        (Ok tt,
         Untyped.mkState
           (Untyped.mkNRCLex (Untyped.lexicon (Untyped.self st)) token_list
                             al ad counts freqs)
           (Untyped.opened st))
    | Raise e =>
        (Raise e,
         Untyped.mkState (Untyped.set_words token_list (Untyped.self st))
                         (Untyped.opened st))
    end.
Proof.
  unfold Untyped.load_token_list, mbind, Untyped.method_bind, Untyped.assign.
  rewrite untyped_build_word_affect_run. simpl.
  destruct (Untyped.analysis _ _) as [[[[al ad] counts] freqs]|e]; done.
Qed.

Lemma untyped_load_lexicon_run
    (open_file : Path -> result string)
    (json_load : string -> result Untyped.json)
    (path : Path) (st : Untyped.state) :
  Untyped.load_lexicon open_file json_load path st
  = match open_file path ≫= json_load with
    | Ok j =>
        (Ok tt,
         Untyped.mkState (Untyped.set_lexicon j (Untyped.self st))
                         (Untyped.opened st ++ [path]))
    | Raise e =>
        (Raise e, Untyped.mkState (Untyped.self st) (Untyped.opened st ++ [path]))
    end.
Proof.
  unfold Untyped.load_lexicon, Untyped.open_, mbind, Untyped.method_bind,
    result_bind, Untyped.local, Untyped.assign.
  destruct (open_file path) as [text|e]; [|done].
  by destruct (json_load text).
Qed.

(** ** Agreement of the two models on lexicons of lists of strings *)

Lemma for_each_pure {A B : Type} (h : A -> B -> A) (xs : list B) (a : A) :
  for_each (fun a b => Ok (h a b)) xs a = Ok (fold_left h xs a).
Proof. revert a. induction xs as [|x xs IH]; intros a; simpl; [done | apply IH]. Qed.

Lemma for_each_embed {A A' B B' : Type} (f : A -> A') (g : B -> B')
    (body : A -> B -> result A) (body' : A' -> B' -> result A')
    (xs : list B) (a : A) :
  (forall a b, body' (f a) (g b)
               = match body a b with Ok r => Ok (f r) | Raise e => Raise e end) ->
  for_each body' (map g xs) (f a)
  = match for_each body xs a with Ok r => Ok (f r) | Raise e => Raise e end.
Proof.
  intros Hstep. revert a. induction xs as [|x xs IH]; intros a; simpl; [done|].
  rewrite Hstep. destruct (body a x) as [a'|e]; simpl; [apply IH | done].
Qed.

Lemma existsb_keys {V : Type} (members : PyDict.t V) (w : string) :
  existsb (String.eqb w) (map fst members)
  = match PyDict.get members w with Some _ => true | None => false end.
Proof.
  induction members as [|[k v] members IH]; simpl; [done|].
  by destruct (String.eqb w k).
Qed.

Lemma setitem_map_values {V W : Type} (f : V -> W) (d : PyDict.t V)
    (k : string) (v : V) :
  PyDict.setitem (map (fun kv => (fst kv, f (snd kv))) d) k (f v)
  = map (fun kv => (fst kv, f (snd kv))) (PyDict.setitem d k v).
Proof.
  induction d as [|[k' v'] d IH]; simpl; [done|].
  destruct (String.eqb k k'); simpl; [done | by rewrite IH].
Qed.

Lemma get_embed_keys {V : Type} (d : PyDict.t V) (k : string) :
  Untyped.get (embed_keys d) (Untyped.of_string k) = PyDict.get d k.
Proof.
  induction d as [|[k' v'] d IH]; simpl; [done|].
  by destruct (String.eqb k k').
Qed.

Lemma setitem_embed_keys {V : Type} (d : PyDict.t V) (k : string) (v : V) :
  Untyped.setitem (embed_keys d) (Untyped.of_string k) v
  = embed_keys (PyDict.setitem d k v).
Proof.
  induction d as [|[k' v'] d IH]; simpl; [done|].
  destruct (String.eqb k k'); simpl; [done | by rewrite IH].
Qed.

(** On a JSON object whose members are lists of strings, the analysis
    returns what the analyzer on checked lexicons computes. *)
Lemma analysis_refines (j : Untyped.json) (lex : gmap string (list string))
    (tokens : list string) :
  Untyped.represents j lex ->
  Untyped.analysis j tokens
  = Ok (map Untyped.of_string (matched_emotions lex tokens),
        map (fun kv => (fst kv, Untyped.of_emotions (snd kv)))
            (matched_map lex tokens),
        embed_keys (tally (matched_emotions lex tokens)),
        embed_keys (frequencies (tally (matched_emotions lex tokens)))).
Proof.
  intros (members & -> & Hrep). unfold Untyped.analysis. simpl.
  set (f := fun acc : list string * PyDict.t (list string) =>
              (map Untyped.of_string (fst acc),
               map (fun kv => (fst kv, Untyped.of_emotions (snd kv))) (snd acc))).
  assert (for_each (Untyped.match_step (Untyped.JObj members) (map fst members))
                   tokens ([], [])
          = Ok (f (matched_emotions lex tokens, matched_map lex tokens))) as ->.
  { rewrite <- (map_id tokens) at 1.
    change (@nil Untyped.json, @nil (string * Untyped.json)) with (f ([], [])).
    rewrite (for_each_embed f id (match_step lex)).
    - by rewrite match_loop.
    - intros [al ad] w. unfold Untyped.match_step, match_step, f. simpl.
      rewrite existsb_keys. unfold PyDict.getitem, lexicon_getitem.
      rewrite Hrep. destruct (lex !! w) as [emotions|] eqn:Hw.
      + rewrite (lexicon_contains_Some _ _ _ Hw). simpl.
        by rewrite map_app, (setitem_map_values Untyped.of_emotions).
      + by rewrite (lexicon_contains_None _ _ Hw). }
  unfold f. simpl.
  set (al := matched_emotions lex tokens).
  assert (for_each Untyped.incr (map Untyped.of_string al) []
          = Ok (embed_keys (tally al))) as ->.
  { change (@nil (Untyped.json * Z)) with (embed_keys (@nil (string * Z))).
    rewrite (for_each_embed embed_keys Untyped.of_string
               (fun c k => Ok (Counter.incr c k))).
    - by rewrite for_each_pure.
    - intros c k. unfold Untyped.incr, Counter.incr, Untyped.counter_getitem,
        Counter.getitem. simpl.
      by rewrite get_embed_keys, setitem_embed_keys. }
  simpl.
  assert (map snd (embed_keys (tally al)) = PyDict.values (tally al)) as ->
    by (unfold embed_keys; by rewrite map_map).
  assert (map fst (embed_keys (tally al))
          = map Untyped.of_string (PyDict.keys (tally al))) as ->
    by (unfold embed_keys, PyDict.keys; by rewrite !map_map).
  change (@nil (Untyped.json * Py.float))
    with (embed_keys (@nil (string * Py.float))).
  rewrite (for_each_embed embed_keys Untyped.of_string
             (percent_step (tally al) (Py.sum (PyDict.values (tally al))))).
  - change (@nil (string * Py.float)) with (@PyDict.empty Py.float).
    by rewrite percent_total by (apply tally_NoDup || apply tally_positive).
  - intros acc k. unfold Untyped.percent_step, percent_step,
      Untyped.counter_getitem, Counter.getitem.
    rewrite get_embed_keys.
    destruct (Py.truediv _ _); simpl; [|done].
    by rewrite setitem_embed_keys.
Qed.

(** A token load on such a lexicon returns normally and leaves the object
    that the analyzer on checked lexicons leaves. *)
Lemma load_token_list_refines (j : Untyped.json)
    (lex : gmap string (list string)) (token_list : list string)
    (st : Untyped.state) :
  Untyped.lexicon (Untyped.self st) = j ->
  Untyped.represents j lex ->
  Untyped.load_token_list token_list st
  = (Ok tt, Untyped.mkState (embed j (recomputed lex token_list))
                            (Untyped.opened st)).
Proof.
  intros Hj Hrep. rewrite untyped_load_token_list_run, Hj.
  by rewrite (analysis_refines j lex token_list Hrep).
Qed.

(** ** Failure of a load *)

(** C6, as stated, fails.  A lexicon file that parses may hold a value
    that is not a list: with ["a": 5] in the lexicon, after a load of
    "happy", the load of "a" raises [TypeError]; the token sequence is
    already the new one, while the matched-emotion list, the matched map,
    the raw counts and the frequencies are still those of "happy". *)
Lemma failed_load_keeps_new_tokens_and_old_scores :
  let before := snd (Untyped.load_token_list ["happy"%string] unchecked_state) in
  let out := Untyped.load_token_list ["a"%string] before in
  fst (Untyped.load_token_list ["happy"%string] unchecked_state) = Ok tt /\
  fst out = Raise TypeError /\
  Untyped.words (Untyped.self (snd out)) = ["a"%string] /\
  Untyped.words (Untyped.self before) = ["happy"%string] /\
  Untyped.affect_list (Untyped.self (snd out))
  = [Untyped.JStr "joy"; Untyped.JStr "positive"] /\
  Untyped.affect_dict (Untyped.self (snd out))
  = [("happy"%string, Untyped.of_emotions ["joy"; "positive"]%string)] /\
  Untyped.raw_emotion_scores (Untyped.self (snd out))
  = [(Untyped.JStr "joy", 1); (Untyped.JStr "positive", 1)] /\
  Untyped.self (snd out) <> Untyped.self before /\
  ~ (fst out = Ok tt \/ Untyped.self (snd out) = Untyped.self before).
Proof.
  simpl. repeat split; try discriminate.
  intros [Hok|Hsame]; discriminate.
Qed.

(** C6, amended.  A token load stores the new token sequence first and
    leaves the lexicon alone; the matched-emotion list, the matched map,
    the raw counts and the frequencies are then replaced together: either
    the load returns normally and the four are those computed from the
    lexicon and the new token sequence, or it raises, with the error of
    that computation, and the four are as before the call.  The token
    sequence is the new one in both cases. *)
Theorem load_replaces_the_scores_together (st : Untyped.state)
    (token_list : list string) :
  let old := Untyped.self st in
  let out := Untyped.load_token_list token_list st in
  let new := Untyped.self (snd out) in
  Untyped.lexicon new = Untyped.lexicon old /\
  Untyped.words new = token_list /\
  Untyped.opened (snd out) = Untyped.opened st /\
  ((fst out = Ok tt /\
    Untyped.analysis (Untyped.lexicon old) token_list
    = Ok (Untyped.affect_list new, Untyped.affect_dict new,
          Untyped.raw_emotion_scores new, Untyped.affect_frequencies new))
   \/ (exists e,
         fst out = Raise e /\
         Untyped.analysis (Untyped.lexicon old) token_list = Raise e /\
         Untyped.affect_list new = Untyped.affect_list old /\
         Untyped.affect_dict new = Untyped.affect_dict old /\
         Untyped.raw_emotion_scores new = Untyped.raw_emotion_scores old /\
         Untyped.affect_frequencies new = Untyped.affect_frequencies old)).
Proof.
  intros old out new. unfold new, out, old.
  rewrite untyped_load_token_list_run.
  destruct (Untyped.analysis _ _) as [[[[al ad] counts] freqs]|e]; simpl.
  - repeat split. by left.
  - repeat split. right. by exists e.
Qed.

(** The two cases of the amended C6 both happen: the first on every
    lexicon of lists of strings, the second on a lexicon whose matched
    entry is a number. *)
Lemma load_returns_on_checked_lexicons
    (lex : gmap string (list string)) (j : Untyped.json)
    (token_list : list string) :
  Untyped.represents j lex ->
  fst (Untyped.load_token_list token_list
         (Untyped.mkState (Untyped.constructed j) []))
  = Ok tt.
Proof.
  intros Hrep.
  by rewrite (load_token_list_refines j lex token_list
                (Untyped.mkState (Untyped.constructed j) []) eq_refl Hrep).
Qed.

(** ** Replacing the lexicon, then recomputing *)

(** X11. After [load_lexicon] has stored the value read from the file,
    whatever it is, [build_word_affect] ends as a load of the same token
    sequence on an object freshly constructed on that value ends: with
    the same error, or normally with the same object.  When it raises,
    the object has the new lexicon and its previous token sequence and
    scores; when the value is an object of lists of strings, it returns
    normally. *)
Theorem recompute_after_load_lexicon
    (open_file : Path -> result string)
    (json_load : string -> result Untyped.json)
    (path : Path) (st : Untyped.state) (j : Untyped.json) :
  open_file path ≫= json_load = Ok j ->
  let out :=
    (Untyped.load_lexicon open_file json_load path;;
     Untyped.build_word_affect) st in
  let fresh :=
    Untyped.load_token_list (Untyped.words (Untyped.self st))
      (Untyped.mkState (Untyped.constructed j) (Untyped.opened st ++ [path])) in
  fst out = fst fresh /\
  (fst out = Ok tt -> snd out = snd fresh) /\
  (forall e, fst out = Raise e ->
     Untyped.self (snd out) = Untyped.set_lexicon j (Untyped.self st)) /\
  (forall lex, Untyped.represents j lex -> fst out = Ok tt).
Proof.
  intros Hj out fresh.
  assert (out = match Untyped.analysis j (Untyped.words (Untyped.self st)) with
                | Ok (al, ad, counts, freqs) =>
                    (Ok tt,
                     Untyped.mkState
                       (Untyped.mkNRCLex j (Untyped.words (Untyped.self st))
                                         al ad counts freqs)
                       (Untyped.opened st ++ [path]))
                | Raise e =>
                    (Raise e,
                     Untyped.mkState (Untyped.set_lexicon j (Untyped.self st))
                                     (Untyped.opened st ++ [path]))
                end) as Hout.
  { unfold out, mbind at 1, Untyped.method_bind.
    rewrite untyped_load_lexicon_run, Hj, untyped_build_word_affect_run.
    simpl. by destruct (Untyped.analysis _ _) as [[[[al ad] counts] freqs]|e]. }
  assert (forall lex, Untyped.represents j lex -> fst out = Ok tt) as Htyped.
  { intros lex Hrep. rewrite Hout.
    by rewrite (analysis_refines j lex _ Hrep). }
  assert (fresh = match Untyped.analysis j (Untyped.words (Untyped.self st)) with
                  | Ok (al, ad, counts, freqs) =>
                      (Ok tt,
                       Untyped.mkState
                         (Untyped.mkNRCLex j (Untyped.words (Untyped.self st))
                                           al ad counts freqs)
                         (Untyped.opened st ++ [path]))
                  | Raise e =>
                      (Raise e,
                       Untyped.mkState
                         (Untyped.set_words (Untyped.words (Untyped.self st))
                                            (Untyped.constructed j))
                         (Untyped.opened st ++ [path]))
                  end) as Hfresh.
  { unfold fresh. by rewrite untyped_load_token_list_run. }
  split; [|split; [|split; [|exact Htyped]]]; rewrite Hout, ?Hfresh;
    destruct (Untyped.analysis _ _) as [[[[al ad] counts] freqs]|e]; simpl;
    try done.
Qed.

Lemma recompute_after_load_lexicon_witness :
  (fun _ : Path => Ok "{...}"%string) "nrc_en.json"%string
    ≫= (fun _ : string => Ok unchecked_lexicon) = Ok unchecked_lexicon /\
  fst ((Untyped.load_lexicon (fun _ => Ok "{...}"%string)
                             (fun _ => Ok unchecked_lexicon)
                             "nrc_en.json"%string;;
        Untyped.build_word_affect)
         (Untyped.mkState
            (Untyped.mkNRCLex Untyped.JNull ["a"%string] [] [] [] []) []))
  = Raise TypeError.
Proof.
  assert ((fun _ : Path => Ok "{...}"%string) "nrc_en.json"%string
            ≫= (fun _ : string => Ok unchecked_lexicon) = Ok unchecked_lexicon)
    as Hj by reflexivity.
  split; [exact Hj|].
  destruct (recompute_after_load_lexicon _ _ "nrc_en.json"%string
              (Untyped.mkState
                 (Untyped.mkNRCLex Untyped.JNull ["a"%string] [] [] [] []) [])
              unchecked_lexicon Hj) as [Hsame _].
  rewrite Hsame. reflexivity.
Defined.
